(** * Verification of the flashrom internal-device plugin

    A shallow embedding of [plugins/flashrom/fu-flashrom-internal-device.c]:
    the [prepare] hook (one-time backup of the flash chip) and the
    [write_firmware] hook (restrict to the bios region, write, verify,
    optional CMOS reset).

    The two hooks are written in a state-and-error monad over a [World]
    (file system, live libflashrom layouts, the layout installed in the
    flash context, the caller's progress object).  Every call into
    libflashrom, the file system, the progress object or the CMOS helper
    appends one [Event] to the trace of the run, so that statements of the
    form "primitive X is not invoked" are statements about that trace. *)

From Stdlib Require Import ZArith NArith String Ascii List HexString.
From stdpp Require Import base gmap strings list pretty.

Local Open Scope string_scope.

(** ** GLib *)

(** [FwupdError], the codes of the [FWUPD_ERROR] domain. *)
Inductive FwupdError :=
| FWUPD_ERROR_INTERNAL
| FWUPD_ERROR_VERSION_NEWER
| FWUPD_ERROR_VERSION_SAME
| FWUPD_ERROR_ALREADY_PENDING
| FWUPD_ERROR_AUTH_FAILED
| FWUPD_ERROR_READ
| FWUPD_ERROR_WRITE
| FWUPD_ERROR_INVALID_FILE
| FWUPD_ERROR_NOT_FOUND
| FWUPD_ERROR_NOTHING_TO_DO
| FWUPD_ERROR_NOT_SUPPORTED
| FWUPD_ERROR_SIGNATURE_INVALID
| FWUPD_ERROR_AC_POWER_REQUIRED
| FWUPD_ERROR_PERMISSION_DENIED
| FWUPD_ERROR_BROKEN_SYSTEM
| FWUPD_ERROR_BATTERY_LEVEL_TOO_LOW
| FWUPD_ERROR_NEEDS_USER_ACTION
| FWUPD_ERROR_AUTH_EXPIRED.

(** The domain and code of a [GError]: either a code of the [FWUPD_ERROR]
    domain, or a numeric code of some other domain (named by its quark). *)
Inductive GErrorKind :=
| FWUPD_ERROR (code : FwupdError)
| ForeignError (domain : string) (code : Z).

Record GError := mkGError { error_kind : GErrorKind; error_message : string }.

#[global] Instance FwupdError_eq_dec : EqDecision FwupdError.
Proof. solve_decision. Defined.

#[global] Instance GErrorKind_eq_dec : EqDecision GErrorKind.
Proof. solve_decision. Defined.

#[global] Instance GError_eq_dec : EqDecision GError.
Proof. solve_decision. Defined.

(** [g_error_matches (err, FWUPD_ERROR, code)]. *)
Definition g_error_matches (err : GError) (code : FwupdError) : bool :=
  bool_decide (error_kind err = FWUPD_ERROR code).

Inductive result (A : Type) :=
| Ok (a : A)
| Err (e : GError).
Arguments Ok {A} a.
Arguments Err {A} e.

(** [G_DIR_SEPARATOR]. *)
Definition G_DIR_SEPARATOR : ascii := "/"%char.

Definition is_dir_separator (c : ascii) : bool := bool_decide (c = G_DIR_SEPARATOR).

Fixpoint drop_while {A} (f : A → bool) (l : list A) : list A :=
  match l with
  | [] => []
  | x :: rest => if f x then drop_while f rest else l
  end.

(** What is left of a string when the separators that end it are cut. *)
Definition cut_trailing_separators (chars : list ascii) : list ascii :=
  rev (drop_while is_dir_separator (rev chars)).

(** The variables of the loop of GLib's [g_build_path_va]: the string
    built so far, whether no element has been appended yet, whether the
    leading separators have been copied, the element to return as it is,
    and the tail of the last element from its trailing separators on. *)
Record BuildPath := mkBuildPath {
  bp_result : list ascii;
  bp_is_first : bool;
  bp_have_leading : bool;
  bp_single_element : option (list ascii);
  bp_last_trailing : option (list ascii)
}.

(** One round of that loop.  An empty element is ignored.  [start] is
    the element after its leading separators, [body] runs from [start]
    to [end], where its trailing separators begin, and [last_trailing]
    is [end] moved back over separators as far as the element reaches.
    The first element that is not empty gives its leading separators to
    the result; an element with a body is appended, after a separator
    unless it is the first one appended. *)
Definition build_path_element (st : BuildPath) (element : list ascii) : BuildPath :=
  match element with
  | [] => st
  | _ =>
      let start := drop_while is_dir_separator element in
      let start_offset := (length element - length start)%nat in
      let body := cut_trailing_separators start in
      let end_offset := (start_offset + length body)%nat in
      let last_trailing_offset :=
        length (cut_trailing_separators (take end_offset element)) in
      let single_element :=
        if bp_have_leading st then None
        else if (last_trailing_offset <=? start_offset)%nat then Some element
             else bp_single_element st in
      let result :=
        if bp_have_leading st then bp_result st
        else (bp_result st ++ take start_offset element)%list in
      let last_trailing := Some (drop last_trailing_offset element) in
      match body with
      | [] => mkBuildPath result (bp_is_first st) true single_element last_trailing
      | _ =>
          mkBuildPath
            (result ++ (if bp_is_first st then [] else [G_DIR_SEPARATOR]) ++ body)%list
            false true single_element last_trailing
      end
  end.

(** [g_build_filename] (GLib, through [g_build_path_va] with the
    directory separator): the elements joined by one separator each,
    with the separators at the joints removed and empty elements left
    out; the leading separators of the first element and the trailing
    separators of the last one are kept, and a lone element made of
    separators is returned as it is. *)
Definition g_build_filename (elements : list string) : string :=
  let st := fold_left build_path_element (map list_ascii_of_string elements)
                      (mkBuildPath [] true false None None) in
  match bp_single_element st with
  | Some element => string_of_list_ascii element
  | None => string_of_list_ascii (bp_result st ++ default [] (bp_last_trailing st))%list
  end.

(** [g_path_get_dirname]: everything before the last separator, without
    the separators that end it; ["."] when there is no separator, and the
    first character alone when only separators come before the last one. *)
Definition g_path_get_dirname (file_name : string) : string :=
  let is_sep := fun c : ascii => bool_decide (c = G_DIR_SEPARATOR) in
  let chars := list_ascii_of_string file_name in
  if forallb (fun c => negb (is_sep c)) chars then "."
  else
    let upto_base := drop_while (fun c => negb (is_sep c)) (rev chars) in
    match drop_while is_sep upto_base with
    | [] => String G_DIR_SEPARATOR EmptyString
    | kept => string_of_list_ascii (rev kept)
    end.

(** [G_STRLOC] at a line of the plugin's source file. *)
Definition G_STRLOC (line : N) : string :=
  "fu-flashrom-internal-device.c:" ++ pretty line.

(** The casts and conversions of the two formatted messages:
    [(guint)sz] printed with [0x%x] and [rc] printed with [%i]. *)
Definition guint_of_gsize (sz : N) : N := (sz mod 2 ^ 32)%N.

Definition format_0x_x (v : N) : string := HexString.of_N v.

Definition format_i (v : Z) : string := pretty v.

(** ** fwupd: status, progress, device, firmware *)

Inductive FwupdStatus :=
| FWUPD_STATUS_UNKNOWN
| FWUPD_STATUS_IDLE
| FWUPD_STATUS_LOADING
| FWUPD_STATUS_DECOMPRESSING
| FWUPD_STATUS_DEVICE_RESTART
| FWUPD_STATUS_DEVICE_WRITE
| FWUPD_STATUS_DEVICE_VERIFY
| FWUPD_STATUS_SCHEDULING
| FWUPD_STATUS_DOWNLOADING
| FWUPD_STATUS_DEVICE_READ
| FWUPD_STATUS_DEVICE_ERASE
| FWUPD_STATUS_WAITING_FOR_AUTH
| FWUPD_STATUS_DEVICE_BUSY
| FWUPD_STATUS_SHUTDOWN.

Inductive FuProgressFlag :=
| FU_PROGRESS_FLAG_GUESSED
| FU_PROGRESS_FLAG_NO_PROFILE.

#[global] Instance FwupdStatus_eq_dec : EqDecision FwupdStatus.
Proof. solve_decision. Defined.

#[global] Instance FuProgressFlag_eq_dec : EqDecision FuProgressFlag.
Proof. solve_decision. Defined.

(** Modelled from the spec: [FuProgress] (libfwupdplugin/fu-progress.c is
    not part of the sources at hand).  The progress ledger is "an ordered
    sequence of weighted phases ... advanced monotonically; each phase is
    marked complete exactly once, in order": the registered steps in
    order, and the number of steps marked done so far. *)
Record FuProgress := mkFuProgress {
  progress_id : string;
  progress_flags : list FuProgressFlag;
  progress_status : FwupdStatus;
  progress_steps : list (FwupdStatus * N);
  progress_step_now : nat
}.

Definition fu_progress_new (id : string) : FuProgress :=
  mkFuProgress id [] FWUPD_STATUS_UNKNOWN [] 0.

Definition progress_set_id (id : string) (pr : FuProgress) : FuProgress :=
  mkFuProgress id (progress_flags pr) (progress_status pr)
               (progress_steps pr) (progress_step_now pr).

Definition progress_add_flag (flag : FuProgressFlag) (pr : FuProgress) : FuProgress :=
  mkFuProgress (progress_id pr) (progress_flags pr ++ [flag]) (progress_status pr)
               (progress_steps pr) (progress_step_now pr).

Definition progress_set_status (status : FwupdStatus) (pr : FuProgress) : FuProgress :=
  mkFuProgress (progress_id pr) (progress_flags pr) status
               (progress_steps pr) (progress_step_now pr).

Definition progress_add_step (status : FwupdStatus) (value : N) (pr : FuProgress) : FuProgress :=
  mkFuProgress (progress_id pr) (progress_flags pr) (progress_status pr)
               (progress_steps pr ++ [(status, value)]) (progress_step_now pr).

(** Marking the current step done moves to the next one; once every
    registered step is done a further call changes nothing. *)
Definition progress_step_done (pr : FuProgress) : FuProgress :=
  if decide (progress_step_now pr < length (progress_steps pr))
  then mkFuProgress (progress_id pr) (progress_flags pr) (progress_status pr)
                    (progress_steps pr) (S (progress_step_now pr))
  else pr.

(** Phase number [i] of the ledger has been marked complete. *)
Definition phase_complete (pr : FuProgress) (i : nat) : Prop :=
  i < progress_step_now pr.

(** The part of a [FuFlashromDevice] the two hooks read: the device id,
    the private flags (a [guint64] bit field) and the flash size. *)
Record FuDevice := mkFuDevice {
  device_id : string;
  device_private_flags : Z;
  device_flash_size : N
}.

Definition fu_device_get_id (device : FuDevice) : string := device_id device.

Definition fu_flashrom_device_get_flash_size (device : FuDevice) : N :=
  device_flash_size device.

(** [(priv->private_flags & flag) > 0]. *)
Definition fu_device_has_private_flag (device : FuDevice) (flag : Z) : bool :=
  (0 <? Z.land (device_private_flags device) flag)%Z.

(** [#define FU_FLASHROM_DEVICE_FLAG_RESET_CMOS (1 << 0)]. *)
Definition FU_FLASHROM_DEVICE_FLAG_RESET_CMOS : Z := Z.shiftl 1 0.

(** A [FuFirmware] as [fu_firmware_get_bytes] sees it: the payload, or
    the error reported when there is none. *)
Record FuFirmware := mkFuFirmware { firmware_bytes : result (list Byte.byte) }.

(** ** libflashrom: layouts *)

Record romentry := mkRomentry {
  entry_start : N;
  entry_end : N;
  entry_included : bool;
  entry_name : string
}.

Definition flashrom_layout := list romentry.

Definition layout_has_region (layout : flashrom_layout) (name : string) : bool :=
  existsb (fun e => bool_decide (entry_name e = name)) layout.

(** The region of that name is marked for inclusion. *)
Definition layout_includes (layout : flashrom_layout) (name : string) : bool :=
  existsb (fun e => entry_included e && bool_decide (entry_name e = name)) layout.

(** Modelled from the spec: [flashrom_layout_include_region] (libflashrom)
    "restricts the resolved layout to the requested region only" and fails
    "if the name is not present in the layout".  The first entry with the
    name is marked included and 0 is returned; 1 when no entry has it. *)
Fixpoint layout_include_region (layout : flashrom_layout) (name : string)
  : Z * flashrom_layout :=
  match layout with
  | [] => (1%Z, [])
  | e :: rest =>
      if bool_decide (entry_name e = name)
      then (0%Z, mkRomentry (entry_start e) (entry_end e) true (entry_name e) :: rest)
      else let '(rc, rest') := layout_include_region rest name in (rc, e :: rest')
  end.

(** ** The world the hooks run in *)

(** The file system: the directories that exist and the regular files
    with their contents. *)
Record FileSystem := mkFileSystem {
  fs_dirs : gset string;
  fs_files : gmap string (list Byte.byte)
}.

(** [g_file_test (filename, G_FILE_TEST_EXISTS)]: a regular file or a
    directory of that name exists. *)
Definition file_test_exists (fs : FileSystem) (filename : string) : bool :=
  bool_decide (is_Some (fs_files fs !! filename))
  || bool_decide (filename ∈ fs_dirs fs).

(** Every regular file lies in a directory that exists. *)
Definition fs_parents_exist (fs : FileSystem) : Prop :=
  ∀ filename, is_Some (fs_files fs !! filename) →
              g_path_get_dirname filename ∈ fs_dirs fs.

Record World := mkWorld {
  w_fs : FileSystem;
  (** layouts allocated by libflashrom and not yet released, by handle *)
  w_layouts : gmap nat flashrom_layout;
  (** the next handle libflashrom hands out *)
  w_next_layout : nat;
  (** the layout installed in the flash context by [flashrom_layout_set] *)
  w_flashctx_layout : option nat;
  (** the [FuProgress] the caller passes to [write_firmware] *)
  w_progress : FuProgress
}.

Definition set_fs (fs : FileSystem) (w : World) : World :=
  mkWorld fs (w_layouts w) (w_next_layout w) (w_flashctx_layout w) (w_progress w).

Definition set_layouts (ls : gmap nat flashrom_layout) (w : World) : World :=
  mkWorld (w_fs w) ls (w_next_layout w) (w_flashctx_layout w) (w_progress w).

Definition set_next_layout (n : nat) (w : World) : World :=
  mkWorld (w_fs w) (w_layouts w) n (w_flashctx_layout w) (w_progress w).

Definition set_flashctx_layout (h : option nat) (w : World) : World :=
  mkWorld (w_fs w) (w_layouts w) (w_next_layout w) h (w_progress w).

Definition set_progress (pr : FuProgress) (w : World) : World :=
  mkWorld (w_fs w) (w_layouts w) (w_next_layout w) (w_flashctx_layout w) pr.

(** What the platform answers when the hooks call out of the plugin: the
    state directory, the outcome of directory creation and of the file
    write, and the return values of the libflashrom primitives and of the
    CMOS helper.  Each primitive is called at most once per run of a
    hook, so one value per primitive describes any platform. *)
Record Platform := mkPlatform {
  localstatedir_pkg : string;
  mkdir_failure : option GError;
  set_contents_failure : option GError;
  ifd_rc : Z;
  ifd_layout : flashrom_layout;
  image_read_rc : Z;
  image_read_data : list Byte.byte;
  image_write_rc : Z;
  image_verify_rc : Z;
  cmos_reset_failure : option GError
}.

(** One call out of the plugin. *)
Inductive Event :=
| EvMkdirParent (filename : string)
| EvFileTest (filename : string)
| EvSetContents (filename : string) (data : list Byte.byte)
| EvLayoutReadFromIfd
| EvLayoutIncludeRegion (layout : nat) (name : string)
| EvLayoutSet (layout : nat)
| EvLayoutRelease (layout : nat)
| EvImageRead (buffer_len : N)
| EvImageWrite (buffer : list Byte.byte) (buffer_len : N)
| EvImageVerify (buffer : list Byte.byte) (buffer_len : N)
| EvProgressSetId (id : string)
| EvProgressAddFlag (flag : FuProgressFlag)
| EvProgressAddStep (status : FwupdStatus) (value : N)
| EvProgressStepDone
| EvCmosReset.

Definition is_descriptor_read (e : Event) : bool :=
  match e with EvLayoutReadFromIfd => true | _ => false end.

Definition is_layout_set (e : Event) : bool :=
  match e with EvLayoutSet _ => true | _ => false end.

Definition is_layout_release (e : Event) : bool :=
  match e with EvLayoutRelease _ => true | _ => false end.

Definition is_image_read (e : Event) : bool :=
  match e with EvImageRead _ => true | _ => false end.

Definition is_image_write (e : Event) : bool :=
  match e with EvImageWrite _ _ => true | _ => false end.

Definition is_image_verify (e : Event) : bool :=
  match e with EvImageVerify _ _ => true | _ => false end.

Definition is_file_write (e : Event) : bool :=
  match e with EvSetContents _ _ => true | _ => false end.

Definition is_step_done (e : Event) : bool :=
  match e with EvProgressStepDone => true | _ => false end.

Definition is_cmos_reset (e : Event) : bool :=
  match e with EvCmosReset => true | _ => false end.

(** A call through the flash context: descriptor read, layout
    activation, chip read, write or verify. *)
Definition is_flash_access (e : Event) : bool :=
  match e with
  | EvLayoutReadFromIfd | EvLayoutSet _ | EvImageRead _
  | EvImageWrite _ _ | EvImageVerify _ _ => true
  | _ => false
  end.

Fixpoint invocations (f : Event → bool) (trace : list Event) : nat :=
  match trace with
  | [] => 0
  | e :: rest => (if f e then 1 else 0) + invocations f rest
  end.

(** ** The monad of the hooks: state, error and trace *)

Record Outcome (A : Type) := mkOutcome {
  out_result : result A;
  out_world : World;
  out_trace : list Event
}.
Arguments mkOutcome {A} _ _ _.
Arguments out_result {A} _.
Arguments out_world {A} _.
Arguments out_trace {A} _.

Definition M (A : Type) : Type := World → Outcome A.

#[global] Instance M_ret : MRet M := λ A a w, mkOutcome (Ok a) w [].

#[global] Instance M_bind : MBind M := λ A B f m w,
  match m w with
  | mkOutcome (Ok a) w1 t1 =>
      match f a w1 with
      | mkOutcome r w2 t2 => mkOutcome r w2 (t1 ++ t2)
      end
  | mkOutcome (Err e) w1 t1 => mkOutcome (Err e) w1 t1
  end.

(** [return FALSE] with [*error] set. *)
Definition throw {A} (e : GError) : M A := λ w, mkOutcome (Err e) w [].

(** [g_set_error (error, FWUPD_ERROR, code, message); return FALSE]. *)
Definition g_set_error {A} (code : FwupdError) (message : string) : M A :=
  throw (mkGError (FWUPD_ERROR code) message).

Definition emit (e : Event) : M unit := λ w, mkOutcome (Ok tt) w [e].

Definition modify (f : World → World) : M unit := λ w, mkOutcome (Ok tt) (f w) [].

Definition get_world : M World := λ w, mkOutcome (Ok w) w [].

(** [g_prefix_error (error, prefix)] on the error of a failed call. *)
Definition g_prefix_error {A} (prefix : string) (m : M A) : M A := λ w,
  match m w with
  | mkOutcome (Ok a) w1 t1 => mkOutcome (Ok a) w1 t1
  | mkOutcome (Err e) w1 t1 =>
      mkOutcome (Err (mkGError (error_kind e) (prefix ++ error_message e))) w1 t1
  end.

(** [g_debug]: a log line, no effect on the world. *)
Definition g_debug (message : string) : M unit := mret tt.

(** The hook returned [TRUE]. *)
Definition succeeded {A} (o : Outcome A) : Prop := ∃ a, out_result o = Ok a.

(** The hook returned [FALSE] with this error. *)
Definition failed_with {A} (o : Outcome A) (e : GError) : Prop := out_result o = Err e.

(** ** The calls out of the plugin *)

Inductive FuPathKind :=
| FU_PATH_KIND_LOCALSTATEDIR_PKG.

Definition fu_common_get_path (p : Platform) (kind : FuPathKind) : string :=
  match kind with
  | FU_PATH_KIND_LOCALSTATEDIR_PKG => localstatedir_pkg p
  end.

(** Modelled from the spec: [fu_common_mkdir_parent] (libfwupdplugin)
    "ensures parent directory exists (directory-creation failure is an
    IOError, fatal to the operation)".  Nothing is done when the parent
    directory is there; otherwise it is created, unless the platform
    refuses. *)
Definition fu_common_mkdir_parent (p : Platform) (filename : string) : M unit :=
  let parent := g_path_get_dirname filename in
  emit (EvMkdirParent filename);;
  w ← get_world;
  if bool_decide (parent ∈ fs_dirs (w_fs w)) then mret tt
  else match mkdir_failure p with
       | Some e => throw e
       | None =>
           modify (set_fs (mkFileSystem ({[parent]} ∪ fs_dirs (w_fs w))
                                        (fs_files (w_fs w))))
       end.

Definition g_file_test_exists (filename : string) : M bool :=
  emit (EvFileTest filename);;
  w ← get_world;
  mret (file_test_exists (w_fs w) filename).

(** Modelled from the spec: [fu_common_set_contents_bytes] (libfwupdplugin)
    "persists the resulting bytes atomically to the backup path" and fails
    with an [IOError] otherwise, leaving the file system as it was. *)
Definition fu_common_set_contents_bytes (p : Platform) (filename : string)
    (bytes : list Byte.byte) : M unit :=
  emit (EvSetContents filename bytes);;
  match set_contents_failure p with
  | Some e => throw e
  | None =>
      modify (λ w, set_fs (mkFileSystem (fs_dirs (w_fs w))
                                        (<[filename := bytes]> (fs_files (w_fs w)))) w)
  end.

(** [fu_firmware_get_bytes (firmware, error)]. *)
Definition fu_firmware_get_bytes (firmware : FuFirmware) : M (list Byte.byte) :=
  match firmware_bytes firmware with
  | Ok blob => mret blob
  | Err e => throw e
  end.

(** [g_bytes_get_data (blob, &sz)]: the data and its size. *)
Definition g_bytes_get_data (blob : list Byte.byte) : list Byte.byte * N :=
  (blob, N.of_nat (length blob)).

(** [g_malloc0 (n)]: [n] zero bytes. *)
Definition g_malloc0 (n : N) : list Byte.byte := replicate (N.to_nat n) Byte.x00.

(** [g_bytes_new_static (data, size)]: the first [size] bytes of [data]. *)
Definition g_bytes_new_static (data : list Byte.byte) (size : N) : list Byte.byte :=
  take (N.to_nat size) data.

(** The caller's progress object. *)
Definition fu_progress_set_id (id : string) : M unit :=
  emit (EvProgressSetId id);;
  modify (λ w, set_progress (progress_set_id id (w_progress w)) w).

Definition fu_progress_add_flag (flag : FuProgressFlag) : M unit :=
  emit (EvProgressAddFlag flag);;
  modify (λ w, set_progress (progress_add_flag flag (w_progress w)) w).

Definition fu_progress_add_step (status : FwupdStatus) (value : N) : M unit :=
  emit (EvProgressAddStep status value);;
  modify (λ w, set_progress (progress_add_step status value (w_progress w)) w).

Definition fu_progress_step_done : M unit :=
  emit EvProgressStepDone;;
  modify (λ w, set_progress (progress_step_done (w_progress w)) w).

(** [flashrom_layout_read_from_ifd (&layout, flashctx, NULL, 0)]: on
    return value 0 a layout has been allocated and its handle stored in
    [layout]; otherwise [layout] is left as it was (here: handle 0). *)
Definition flashrom_layout_read_from_ifd (p : Platform) : M (Z * nat) :=
  emit EvLayoutReadFromIfd;;
  if (ifd_rc p =? 0)%Z then
    w ← get_world;
    let h := w_next_layout w in
    modify (λ w, set_next_layout (S h)
                   (set_layouts (<[h := ifd_layout p]> (w_layouts w)) w));;
    mret (0%Z, h)
  else mret (ifd_rc p, 0).

(** [flashrom_layout_include_region (layout, name)] on a live layout. *)
Definition flashrom_layout_include_region (layout : nat) (name : string) : M Z :=
  emit (EvLayoutIncludeRegion layout name);;
  w ← get_world;
  match w_layouts w !! layout with
  | Some l =>
      let '(rc, l') := layout_include_region l name in
      modify (set_layouts (<[layout := l']> (w_layouts w)));;
      mret rc
  | None => mret 1%Z
  end.

(** [flashrom_layout_set (flashctx, layout)]. *)
Definition flashrom_layout_set (layout : nat) : M unit :=
  emit (EvLayoutSet layout);;
  modify (set_flashctx_layout (Some layout)).

(** [flashrom_layout_release (layout)]: the layout is freed. *)
Definition flashrom_layout_release (layout : nat) : M unit :=
  emit (EvLayoutRelease layout);;
  modify (λ w, set_layouts (delete layout (w_layouts w)) w).

(** What a chip read leaves in a buffer: the bytes delivered, as far as
    the buffer reaches, and the buffer's own bytes after them. *)
Definition read_into (data buffer : list Byte.byte) : list Byte.byte :=
  take (length buffer) data ++ drop (length data) buffer.

(** [flashrom_image_read (flashctx, buffer, buffer_len)]: the return
    value and the buffer afterwards. *)
Definition flashrom_image_read (p : Platform) (buffer : list Byte.byte)
    (buffer_len : N) : M (Z * list Byte.byte) :=
  emit (EvImageRead buffer_len);;
  if (image_read_rc p =? 0)%Z
  then mret (0%Z, read_into (image_read_data p) buffer)
  else mret (image_read_rc p, buffer).

(** [flashrom_image_write (flashctx, buffer, buffer_len, NULL)]. *)
Definition flashrom_image_write (p : Platform) (buffer : list Byte.byte)
    (buffer_len : N) : M Z :=
  emit (EvImageWrite buffer buffer_len);;
  mret (image_write_rc p).

(** [flashrom_image_verify (flashctx, buffer, buffer_len)]. *)
Definition flashrom_image_verify (p : Platform) (buffer : list Byte.byte)
    (buffer_len : N) : M Z :=
  emit (EvImageVerify buffer buffer_len);;
  mret (image_verify_rc p).

(** [fu_flashrom_cmos_reset (error)]. *)
Definition fu_flashrom_cmos_reset (p : Platform) : M unit :=
  emit EvCmosReset;;
  match cmos_reset_failure p with
  | Some e => throw e
  | None => mret tt
  end.

(** ** The two hooks *)

(** The region both hooks restrict the layout to. *)
Definition bios_region : string := "bios".

Definition fu_flashrom_internal_device_prepare (p : Platform) (device : FuDevice)
  : M unit :=
  let progress := fu_progress_new (G_STRLOC 52) in
  (* if the original firmware doesn't exist, grab it now *)
  let basename := "flashrom-" ++ fu_device_get_id device ++ ".bin" in
  let localstatedir := fu_common_get_path p FU_PATH_KIND_LOCALSTATEDIR_PKG in
  let firmware_orig := g_build_filename [localstatedir; "builder"; basename] in
  fu_common_mkdir_parent p firmware_orig;;
  present ← g_file_test_exists firmware_orig;
  if negb present then
    let flash_size := fu_flashrom_device_get_flash_size device in
    let newcontents := g_malloc0 flash_size in
    '(rc, layout) ← flashrom_layout_read_from_ifd p;
    if negb (rc =? 0)%Z then
      g_set_error FWUPD_ERROR_READ "failed to read layout from Intel ICH descriptor"
    else
    (* include bios region for safety reasons *)
    rc ← flashrom_layout_include_region layout bios_region;
    if negb (rc =? 0)%Z then
      g_set_error FWUPD_ERROR_NOT_SUPPORTED "invalid region name"
    else
    (* read region *)
    flashrom_layout_set layout;;
    let progress := progress_set_status FWUPD_STATUS_DEVICE_READ progress in
    '(rc, newcontents) ← flashrom_image_read p newcontents flash_size;
    if negb (rc =? 0)%Z then
      g_set_error FWUPD_ERROR_READ "failed to back up original firmware"
    else
    let buf := g_bytes_new_static newcontents flash_size in
    fu_common_set_contents_bytes p firmware_orig buf
  else mret tt.

Definition fu_flashrom_internal_device_write_firmware (p : Platform)
    (device : FuDevice) (firmware : FuFirmware) : M unit :=
  let flash_size := fu_flashrom_device_get_flash_size device in
  blob_fw ← fu_firmware_get_bytes firmware;
  (* progress *)
  fu_progress_set_id (G_STRLOC 123);;
  fu_progress_add_flag FU_PROGRESS_FLAG_GUESSED;;
  fu_progress_add_step FWUPD_STATUS_DEVICE_WRITE 90;;
  fu_progress_add_step FWUPD_STATUS_DEVICE_VERIFY 10;;
  let '(buf, sz) := g_bytes_get_data blob_fw in
  '(rc, layout) ← flashrom_layout_read_from_ifd p;
  if negb (rc =? 0)%Z then
    g_set_error FWUPD_ERROR_READ "failed to read layout from Intel ICH descriptor"
  else
  (* include bios region for safety reasons *)
  rc ← flashrom_layout_include_region layout bios_region;
  if negb (rc =? 0)%Z then
    g_set_error FWUPD_ERROR_NOT_SUPPORTED "invalid region name"
  else
  (* write region *)
  flashrom_layout_set layout;;
  if negb (sz =? flash_size)%N then
    g_set_error FWUPD_ERROR_NOT_SUPPORTED
      ("invalid image size " ++ format_0x_x (guint_of_gsize sz)
       ++ ", expected " ++ format_0x_x (guint_of_gsize flash_size))
  else
  rc ← flashrom_image_write p buf sz;
  if negb (rc =? 0)%Z then
    g_set_error FWUPD_ERROR_WRITE ("image write failed, err=" ++ format_i rc)
  else
  fu_progress_step_done;;
  rc ← flashrom_image_verify p buf sz;
  if negb (rc =? 0)%Z then
    g_set_error FWUPD_ERROR_WRITE "image verify failed"
  else
  fu_progress_step_done;;
  flashrom_layout_release layout;;
  (* Check if CMOS needs a reset *)
  (if fu_device_has_private_flag device FU_FLASHROM_DEVICE_FLAG_RESET_CMOS then
     g_debug "Attempting CMOS Reset";;
     g_prefix_error "failed CMOS reset: " (fu_flashrom_cmos_reset p)
   else mret tt);;
  (* success *)
  mret tt.

(** ** Vocabulary of the statements *)

(** The path of the backup artifact of a device, as [prepare] builds it. *)
Definition backup_artifact_path (p : Platform) (device : FuDevice) : string :=
  g_build_filename
    [localstatedir_pkg p; "builder"; "flashrom-" ++ device_id device ++ ".bin"].



(** The bytes [prepare] saves: the chip read into a zeroed buffer of the
    size of the flash. *)
Definition backup_bytes (p : Platform) (device : FuDevice) : list Byte.byte :=
  read_into (image_read_data p) (g_malloc0 (device_flash_size device)).

(** The run of [write_firmware] gets as far as calling the write
    primitive: there is a payload, the descriptor is read, it has the
    bios region, and the payload has the size of the flash. *)
Definition reaches_write (p : Platform) (device : FuDevice) (firmware : FuFirmware)
  : Prop :=
  ∃ blob, firmware_bytes firmware = Ok blob
          ∧ ifd_rc p = 0%Z
          ∧ layout_has_region (ifd_layout p) bios_region = true
          ∧ N.of_nat (length blob) = device_flash_size device.

(** The progress object after the progress calls of a trace. *)
Fixpoint progress_after (trace : list Event) (pr : FuProgress) : FuProgress :=
  match trace with
  | [] => pr
  | EvProgressSetId id :: rest => progress_after rest (progress_set_id id pr)
  | EvProgressAddFlag flag :: rest => progress_after rest (progress_add_flag flag pr)
  | EvProgressAddStep status value :: rest =>
      progress_after rest (progress_add_step status value pr)
  | EvProgressStepDone :: rest => progress_after rest (progress_step_done pr)
  | _ :: rest => progress_after rest pr
  end.

(** The calls of a trace that register or complete a phase, or write or
    verify the chip. *)
Definition is_phase_event (e : Event) : bool :=
  match e with
  | EvProgressAddStep _ _ | EvProgressStepDone
  | EvImageWrite _ _ | EvImageVerify _ _ => true
  | _ => false
  end.

Fixpoint select (f : Event → bool) (trace : list Event) : list Event :=
  match trace with
  | [] => []
  | e :: rest => if f e then e :: select f rest else select f rest
  end.

(** The errors the two hooks set themselves. *)
Definition descriptor_read_error : GError :=
  mkGError (FWUPD_ERROR FWUPD_ERROR_READ)
           "failed to read layout from Intel ICH descriptor".

Definition invalid_region_error : GError :=
  mkGError (FWUPD_ERROR FWUPD_ERROR_NOT_SUPPORTED) "invalid region name".

Definition backup_read_error : GError :=
  mkGError (FWUPD_ERROR FWUPD_ERROR_READ) "failed to back up original firmware".

Definition size_mismatch_error (sz flash_size : N) : GError :=
  mkGError (FWUPD_ERROR FWUPD_ERROR_NOT_SUPPORTED)
           ("invalid image size " ++ format_0x_x (guint_of_gsize sz)
            ++ ", expected " ++ format_0x_x (guint_of_gsize flash_size)).

Definition image_write_error (rc : Z) : GError :=
  mkGError (FWUPD_ERROR FWUPD_ERROR_WRITE) ("image write failed, err=" ++ format_i rc).

Definition image_verify_error : GError :=
  mkGError (FWUPD_ERROR FWUPD_ERROR_WRITE) "image verify failed".

(** The calls on the caller's progress object. *)
Definition is_progress_call (e : Event) : bool :=
  match e with
  | EvProgressSetId _ | EvProgressAddFlag _
  | EvProgressAddStep _ _ | EvProgressStepDone => true
  | _ => false
  end.

(** The calls into the file system. *)
Definition is_file_system_call (e : Event) : bool :=
  match e with
  | EvMkdirParent _ | EvFileTest _ | EvSetContents _ _ => true
  | _ => false
  end.

(** The calls that move bytes to or from the chip's image. *)
Definition is_chip_io (e : Event) : bool :=
  match e with
  | EvImageWrite _ _ | EvImageVerify _ _ => true
  | _ => false
  end.

(** The calls that read, write or verify the chip's image. *)
Definition is_image_access (e : Event) : bool := is_image_read e || is_chip_io e.

(** The parent directory of the backup is there or can be created. *)
Definition parent_ensured (p : Platform) (device : FuDevice) (w : World) : Prop :=
  g_path_get_dirname (backup_artifact_path p device) ∈ fs_dirs (w_fs w)
  ∨ mkdir_failure p = None.

(** The handles in use lie below the next handle libflashrom hands
    out, so that a new layout never takes the place of a live one. *)
Definition layouts_fresh (w : World) : Prop :=
  ∀ h, is_Some (w_layouts w !! h) → (h < w_next_layout w)%nat.

(** ** Example platforms, devices and worlds *)

Module Example.

Definition layout_with_bios : flashrom_layout :=
  [mkRomentry 0 4095 false "fd"; mkRomentry 4096 8191 false "bios"].

Definition layout_without_bios : flashrom_layout :=
  [mkRomentry 0 4095 false "fd"; mkRomentry 4096 8191 false "me"].

Definition chip : list Byte.byte := [Byte.xde; Byte.xad; Byte.xbe; Byte.xef].

Definition image : list Byte.byte := [Byte.x01; Byte.x02; Byte.x03; Byte.x04].

Definition short_image : list Byte.byte := [Byte.x01; Byte.x02].

Definition io_error : GError :=
  mkGError (ForeignError "g-io-error-quark" 0) "port I/O refused".

(** Every primitive succeeds; the descriptor has the bios region. *)
Definition good : Platform :=
  mkPlatform "/var/lib/fwupd" None None 0 layout_with_bios 0 chip 0 0 None.

Definition no_bios : Platform :=
  mkPlatform "/var/lib/fwupd" None None 0 layout_without_bios 0 chip 0 0 None.

Definition write_fails : Platform :=
  mkPlatform "/var/lib/fwupd" None None 0 layout_with_bios 0 chip 2 0 None.

Definition verify_fails : Platform :=
  mkPlatform "/var/lib/fwupd" None None 0 layout_with_bios 0 chip 0 3 None.

Definition cmos_fails : Platform :=
  mkPlatform "/var/lib/fwupd" None None 0 layout_with_bios 0 chip 0 0 (Some io_error).

Definition device : FuDevice := mkFuDevice "a1b2c3" 0 4.

Definition device_reset_cmos : FuDevice :=
  mkFuDevice "a1b2c3" FU_FLASHROM_DEVICE_FLAG_RESET_CMOS 4.

Definition firmware : FuFirmware := mkFuFirmware (Ok image).

Definition short_firmware : FuFirmware := mkFuFirmware (Ok short_image).

(** Nothing on disk, no live layout, a fresh progress object. *)
Definition fresh : World :=
  mkWorld (mkFileSystem ∅ ∅) ∅ 0 None (fu_progress_new "engine").

(** The backup of [device] is already on disk. *)
Definition backed_up : World :=
  mkWorld (mkFileSystem {["/var/lib/fwupd/builder"]}
                        {["/var/lib/fwupd/builder/flashrom-a1b2c3.bin" := chip]})
          ∅ 0 None (fu_progress_new "engine").


(** The descriptor cannot be read. *)
Definition no_descriptor : Platform :=
  mkPlatform "/var/lib/fwupd" None None 3 [] 0 chip 0 0 None.

(** The chip cannot be read. *)
Definition read_fails : Platform :=
  mkPlatform "/var/lib/fwupd" None None 0 layout_with_bios 1 [] 0 0 None.

Definition disk_error : GError :=
  mkGError (ForeignError "g-file-error-quark" 12) "No space left on device".

(** The backup cannot be saved. *)
Definition disk_full : Platform :=
  mkPlatform "/var/lib/fwupd" None (Some disk_error) 0 layout_with_bios 0 chip 0 0 None.

(** Directories cannot be created. *)
Definition read_only_disk : Platform :=
  mkPlatform "/var/lib/fwupd" (Some disk_error) None 0 layout_with_bios 0 chip 0 0 None.

(** A flash of 2^32 + 2 bytes. *)
Definition huge_device : FuDevice := mkFuDevice "a1b2c3" 0 4294967298.

(** A device with private flags other than reset-cmos. *)
Definition device_other_flags : FuDevice := mkFuDevice "a1b2c3" 6 4.

Definition no_payload_error : GError :=
  mkGError (FWUPD_ERROR FWUPD_ERROR_NOT_FOUND) "no payload set".

Definition empty_firmware : FuFirmware := mkFuFirmware (Err no_payload_error).

End Example.

(** ** Symbolic execution of the hooks *)

Ltac unfold_hooks :=
  unfold fu_flashrom_internal_device_write_firmware,
    fu_flashrom_internal_device_prepare,
    fu_firmware_get_bytes, fu_progress_set_id, fu_progress_add_flag,
    fu_progress_add_step, fu_progress_step_done, flashrom_layout_read_from_ifd,
    flashrom_layout_include_region, flashrom_layout_set, flashrom_layout_release,
    flashrom_image_write, flashrom_image_verify, flashrom_image_read,
    fu_flashrom_cmos_reset, fu_common_mkdir_parent, g_file_test_exists,
    fu_common_set_contents_bytes, g_set_error, g_prefix_error, g_debug,
    g_bytes_get_data, fu_flashrom_device_get_flash_size, fu_device_get_id,
    fu_common_get_path.

Ltac msimpl :=
  cbv beta iota zeta delta [mbind mret M_bind M_ret throw emit modify get_world];
  cbn [out_result out_world out_trace app negb
       w_fs w_layouts w_next_layout w_flashctx_layout w_progress
       fs_dirs fs_files
       set_fs set_layouts set_next_layout set_flashctx_layout set_progress].

Ltac exec_step :=
  match goal with
  | |- context [<[?h := _]> _ !! ?h] => rewrite lookup_insert_eq
  | |- context [(0 =? 0)%Z] => change (0 =? 0)%Z with true
  | |- context [(Z.pos ?x =? 0)%Z] => change (Z.pos x =? 0)%Z with false
  | H : ?c = _ |- context [(if negb ?c then _ else _) ?w] => rewrite H
  | H : ?c = _ |- context [(if ?c then _ else _) ?w] => rewrite H
  | H : ?c = _ |- context [(match ?c with Some _ => _ | None => _ end) ?w] => rewrite H
  | H : ?c = _ |- context [(match ?c with Ok _ => _ | Err _ => _ end) ?w] => rewrite H
  | H : ?c = _ |- context [(let '(_, _) := ?c in _) ?w] => rewrite H
  | |- context [(if negb ?c then _ else _) ?w] => destruct c eqn:?
  | |- context [(if ?c then _ else _) ?w] => destruct c eqn:?
  | |- context [(match ?c with Some _ => _ | None => _ end) ?w] => destruct c eqn:?
  | |- context [(match ?c with Ok _ => _ | Err _ => _ end) ?w] => destruct c eqn:?
  | |- context [(let '(_, _) := ?c in _) ?w] => destruct c eqn:?
  end.

Ltac fold_path :=
  change (g_build_filename
            [localstatedir_pkg ?p; "builder"; "flashrom-" ++ device_id ?d ++ ".bin"])
    with (backup_artifact_path p d) in *.

(** Run a hook on a symbolic world, one case per exit. *)
Ltac exec := unfold_hooks; msimpl; try fold_path; repeat (exec_step; msimpl).

(** One point of the run of the write hook, for the progress ledger. *)
Ltac ledger_case :=
  vm_compute;
  split; intros Hc;
  first [ lia
        | split; [apply Z.eqb_eq; assumption | reflexivity]
        | split; [lia|]; split; [apply Z.eqb_eq; assumption | reflexivity] ].

(** ** Facts about the calls out of the plugin *)

Lemma layout_include_region_rc l name :
  fst (layout_include_region l name) = if layout_has_region l name then 0%Z else 1%Z.
Proof.
  induction l as [|e l IH]; [done|]. cbn.
  case_bool_decide; [done|]. cbn. destruct (layout_include_region l name). cbn in *. done.
Qed.

Lemma include_region_present l name rc l' :
  layout_include_region l name = (rc, l') → layout_has_region l name = true → rc = 0%Z.
Proof. intros H Hp. pose proof (layout_include_region_rc l name) as E. rewrite H, Hp in E. done. Qed.

Lemma include_region_absent l name rc l' :
  layout_include_region l name = (rc, l') → layout_has_region l name = false → rc = 1%Z.
Proof. intros H Hp. pose proof (layout_include_region_rc l name) as E. rewrite H, Hp in E. done. Qed.

Lemma include_region_included l name l' :
  layout_include_region l name = (0%Z, l') → layout_includes l' name = true.
Proof.
  unfold layout_includes.
  revert l'. induction l as [|e l IH]; intros l'; cbn; [discriminate|].
  case_bool_decide as Hname.
  - intros [= <-]. cbn. by rewrite bool_decide_eq_true_2.
  - destruct (layout_include_region l name) as [rc rest] eqn:Hrest.
    intros [= -> <-]. cbn. rewrite (IH rest eq_refl). apply orb_true_r.
Qed.

Lemma firmware_orig_path p device :
  g_build_filename [localstatedir_pkg p; "builder"; "flashrom-" ++ device_id device ++ ".bin"]
  = backup_artifact_path p device.
Proof. reflexivity. Qed.


(** *** File names *)

Lemma length_drop_while {A} (f : A → bool) (l : list A) :
  (length (drop_while f l) ≤ length l)%nat.
Proof. induction l as [|x l IH]; cbn; [lia|]. destruct (f x); cbn; lia. Qed.

Lemma list_ascii_of_string_app (s1 s2 : string) :
  list_ascii_of_string (s1 ++ s2)
  = (list_ascii_of_string s1 ++ list_ascii_of_string s2)%list.
Proof. induction s1 as [|c s1 IH]; simpl; [done|]. f_equal. exact IH. Qed.

Lemma length_list_ascii_of_string (s : string) :
  length (list_ascii_of_string s) = String.length s.
Proof. induction s as [|c s IH]; simpl; [done|]. f_equal. exact IH. Qed.

Lemma length_string_of_list_ascii (l : list ascii) :
  String.length (string_of_list_ascii l) = length l.
Proof. induction l as [|c l IH]; simpl; [done|]. f_equal. exact IH. Qed.


Lemma drop_while_all {A} (f : A → bool) (l rest : list A) :
  Forall (λ x, f x = true) l → drop_while f (l ++ rest) = drop_while f rest.
Proof. induction 1 as [|y l Hy _ IH]; cbn; [done|]. by rewrite Hy. Qed.


(** Cutting the trailing separators of [front ++ [c] ++ seps]. *)
Lemma cut_trailing_separators_app (front seps : list ascii) (c : ascii) :
  c ≠ G_DIR_SEPARATOR →
  Forall (λ x, x = G_DIR_SEPARATOR) seps →
  cut_trailing_separators (front ++ c :: seps) = (front ++ [c])%list.
Proof.
  intros Hc Hseps. unfold cut_trailing_separators.
  rewrite rev_app_distr. cbn [rev]. rewrite <- !app_assoc.
  rewrite drop_while_all.
  - cbn. unfold is_dir_separator at 1. rewrite (bool_decide_eq_false_2 _ Hc).
    cbn [rev]. by rewrite rev_involutive.
  - apply Forall_rev. eapply Forall_impl; [exact Hseps|].
    intros x ->. reflexivity.
Qed.

(** One round of the loop on an element without separators at its ends. *)
Lemma build_path_element_plain st (front : list ascii) (c : ascii) :
  c ≠ G_DIR_SEPARATOR →
  drop_while is_dir_separator (front ++ [c]) = (front ++ [c])%list →
  build_path_element st (front ++ [c])
  = mkBuildPath
      (bp_result st ++ (if bp_is_first st then [] else [G_DIR_SEPARATOR]) ++ front ++ [c])
      false true
      (if bp_have_leading st then None else bp_single_element st)
      (Some []).
Proof.
  intros Hc Hstart. unfold build_path_element.
  rewrite Hstart, Nat.sub_diag.
  rewrite (cut_trailing_separators_app front [] c Hc (Forall_nil_2 _)).
  cbn [Nat.add]. rewrite firstn_all.
  rewrite (cut_trailing_separators_app front [] c Hc (Forall_nil_2 _)).
  rewrite drop_all, take_0, app_nil_r.
  assert ((length (front ++ [c]) <=? 0)%nat = false) as ->
    by (apply Nat.leb_gt; rewrite length_app; cbn; lia).
  destruct (front ++ [c])%list as [|x l] eqn:Hl; [by destruct front|].
  by destruct (bp_have_leading st).
Qed.

(** A file name that has a separator and does not end in one is longer
    than its directory name. *)
Lemma dirname_shorter (s : string) (front : list ascii) (c : ascii) :
  list_ascii_of_string s = (front ++ [c])%list →
  c ≠ G_DIR_SEPARATOR →
  G_DIR_SEPARATOR ∈ front →
  (String.length (g_path_get_dirname s) < String.length s)%nat.
Proof.
  intros Hs Hc Hsep. unfold g_path_get_dirname.
  rewrite <- (length_list_ascii_of_string s), Hs, length_app. cbn [length].
  assert (0 < length front)%nat by (destruct front; [by apply elem_of_nil in Hsep | cbn; lia]).
  destruct (forallb _ _) eqn:Hall.
  - cbn. lia.
  - rewrite rev_app_distr. cbn [rev app drop_while].
    rewrite (bool_decide_eq_false_2 _ Hc). cbn [negb].
    match goal with |- context [drop_while ?f (drop_while ?g ?l)] =>
      pose proof (length_drop_while f (drop_while g l)) as L1;
      pose proof (length_drop_while g l) as L2;
      destruct (drop_while f (drop_while g l)) as [|k ks] eqn:Hk
    end.
    + cbn. lia.
    + rewrite length_string_of_list_ascii, length_app, length_rev.
      rewrite length_rev in L2. cbn [length] in *. lia.
Qed.

(** The name of the backup file has no separator at its ends. *)
Lemma basename_chars (id : string) :
  list_ascii_of_string ("flashrom-" ++ id ++ ".bin")
  = ((list_ascii_of_string "flashrom-" ++ list_ascii_of_string id
      ++ list_ascii_of_string ".bi") ++ ["n"%char])%list.
Proof.
  rewrite !list_ascii_of_string_app. rewrite <- !app_assoc. reflexivity.
Qed.

(** The characters of the backup path: whatever the state directory
    gives, followed by the directory [builder], one separator and the
    name of the file. *)
Lemma backup_artifact_path_chars p device :
  let st := build_path_element (mkBuildPath [] true false None None)
                               (list_ascii_of_string (localstatedir_pkg p)) in
  list_ascii_of_string (backup_artifact_path p device)
  = (bp_result st ++ (if bp_is_first st then [] else [G_DIR_SEPARATOR])
     ++ list_ascii_of_string "builder/flashrom-"
     ++ list_ascii_of_string (device_id device)
     ++ list_ascii_of_string ".bin")%list.
Proof.
  intros st. unfold backup_artifact_path, g_build_filename.
  cbn [map fold_left]. fold st.
  change (list_ascii_of_string "builder")
    with (list_ascii_of_string "builde" ++ ["r"%char])%list.
  rewrite build_path_element_plain; [|discriminate|reflexivity].
  rewrite basename_chars.
  rewrite build_path_element_plain; [|discriminate|reflexivity].
  cbn [bp_result bp_is_first bp_have_leading bp_single_element bp_last_trailing].
  cbn [default]. rewrite list_ascii_of_string_of_list_ascii.
  rewrite app_nil_r, <- !app_assoc. reflexivity.
Qed.

Lemma backup_path_not_own_parent p device :
  g_path_get_dirname (backup_artifact_path p device) ≠ backup_artifact_path p device.
Proof.
  intros E. apply (f_equal String.length) in E.
  assert (String.length (g_path_get_dirname (backup_artifact_path p device))
          < String.length (backup_artifact_path p device))%nat as L; [|lia].
  pose (st := build_path_element (mkBuildPath [] true false None None)
                                 (list_ascii_of_string (localstatedir_pkg p))).
  apply (dirname_shorter _
    (bp_result st ++ (if bp_is_first st then [] else [G_DIR_SEPARATOR])
     ++ list_ascii_of_string "builder/flashrom-"
     ++ list_ascii_of_string (device_id device) ++ list_ascii_of_string ".bi")%list
    "n"%char).
  - rewrite backup_artifact_path_chars. fold st.
    rewrite <- !app_assoc. reflexivity.
  - discriminate.
  - apply elem_of_app. right. apply elem_of_app. right.
    apply elem_of_app. left. cbn. do 7 right. left.
Qed.



(** Creating a directory other than [filename] does not change whether
    [filename] exists. *)
Lemma file_test_exists_mkdir fs parent filename :
  parent ≠ filename →
  file_test_exists (mkFileSystem ({[parent]} ∪ fs_dirs fs) (fs_files fs)) filename
  = file_test_exists fs filename.
Proof.
  intros Hne. unfold file_test_exists. cbn. f_equal.
  apply bool_decide_ext. rewrite elem_of_union, elem_of_singleton.
  split; [intros [E | Hin]; [by subst | done] | by right].
Qed.


Lemma read_into_length (data buffer : list Byte.byte) :
  length (read_into data buffer) = length buffer.
Proof. unfold read_into. rewrite length_app, length_take, length_drop. lia. Qed.


Lemma g_malloc0_length (n : N) : length (g_malloc0 n) = N.to_nat n.
Proof. apply length_replicate. Qed.

(** A regular file exists. *)
Lemma file_test_exists_file fs filename :
  is_Some (fs_files fs !! filename) → file_test_exists fs filename = true.
Proof. intros H. unfold file_test_exists. by rewrite bool_decide_eq_true_2. Qed.

(** *** The two runs of [prepare] that end in success *)

Lemma backup_bytes_length p device :
  length (backup_bytes p device) = N.to_nat (device_flash_size device).
Proof. unfold backup_bytes. by rewrite read_into_length, g_malloc0_length. Qed.

Lemma g_bytes_new_static_backup p device :
  g_bytes_new_static (backup_bytes p device) (device_flash_size device)
  = backup_bytes p device.
Proof.
  unfold g_bytes_new_static. apply take_ge. rewrite backup_bytes_length. lia.
Qed.

Lemma prepare_backup_present p device w :
  g_path_get_dirname (backup_artifact_path p device) ∈ fs_dirs (w_fs w) →
  file_test_exists (w_fs w) (backup_artifact_path p device) = true →
  fu_flashrom_internal_device_prepare p device w
  = mkOutcome (Ok tt) w [EvMkdirParent (backup_artifact_path p device);
                         EvFileTest (backup_artifact_path p device)].
Proof.
  intros Hdir Hfile. apply (bool_decide_eq_true_2 _) in Hdir.
  exec. reflexivity.
Qed.

Lemma prepare_backup_created p device w :
  file_test_exists (w_fs w) (backup_artifact_path p device) = false →
  succeeded (fu_flashrom_internal_device_prepare p device w) →
  ∃ l', layout_include_region (ifd_layout p) bios_region = (0%Z, l')
    ∧ ifd_rc p = 0%Z
    ∧ fu_flashrom_internal_device_prepare p device w
      = mkOutcome (Ok tt)
          (mkWorld
             (mkFileSystem
                ({[g_path_get_dirname (backup_artifact_path p device)]} ∪ fs_dirs (w_fs w))
                (<[backup_artifact_path p device := backup_bytes p device]>
                   (fs_files (w_fs w))))
             (<[w_next_layout w := l']> (<[w_next_layout w := ifd_layout p]> (w_layouts w)))
             (S (w_next_layout w)) (Some (w_next_layout w)) (w_progress w))
          [EvMkdirParent (backup_artifact_path p device);
           EvFileTest (backup_artifact_path p device);
           EvLayoutReadFromIfd;
           EvLayoutIncludeRegion (w_next_layout w) bios_region;
           EvLayoutSet (w_next_layout w);
           EvImageRead (device_flash_size device);
           EvSetContents (backup_artifact_path p device) (backup_bytes p device)].
Proof.
  intros Habsent.
  pose proof (file_test_exists_mkdir (w_fs w) _ _ (backup_path_not_own_parent p device))
    as Hmk.
  rewrite Habsent in Hmk. unfold succeeded.
  exec; intros [a Ha]; try discriminate.
  all: fold (backup_bytes p device); rewrite g_bytes_new_static_backup.
  all: apply Z.eqb_eq in Heqb0, Heqb1; subst; eexists; (split; [done|]); (split; [done|]).
  all: repeat f_equal.
  unfold set_fs, set_flashctx_layout, set_layouts, set_next_layout. cbn.
  apply bool_decide_eq_true in Heqb. do 2 f_equal.
  apply leibniz_equiv. intros x. rewrite elem_of_union, elem_of_singleton.
  split; [by right | intros [E | Hin]; [by subst | done]].
Qed.

(** The conditions of [reaches_write], as the hook tests them. *)
Lemma reaches_write_tests p device firmware :
  reaches_write p device firmware →
  ∃ blob l',
    firmware_bytes firmware = Ok blob
    ∧ (ifd_rc p =? 0)%Z = true
    ∧ layout_include_region (ifd_layout p) bios_region = (0%Z, l')
    ∧ (N.of_nat (length blob) =? device_flash_size device)%N = true.
Proof.
  intros (blob & Hfw & Hrc & Hbios & Hsz).
  destruct (layout_include_region (ifd_layout p) bios_region) as [rc l'] eqn:Hinc.
  rewrite (include_region_present _ _ _ _ Hinc Hbios) in *.
  exists blob, l'. repeat split; [done | by apply Z.eqb_eq | by apply N.eqb_eq].
Qed.

(** ** The write hook: size check *)

(** C1 (as amended).  For every update image whose byte length differs
    from the flash size, [write_firmware] fails without invoking the
    write or the verify primitive, but only after the descriptor has been
    read once; when that read succeeds and the layout has the bios
    region, the layout is activated and the failure is the size error
    (NOT_SUPPORTED, naming the actual and the expected size). *)
Theorem C1_size_gate_precedes_write p device firmware blob w :
  firmware_bytes firmware = Ok blob →
  N.of_nat (length blob) ≠ device_flash_size device →
  let o := fu_flashrom_internal_device_write_firmware p device firmware w in
  (∃ e, failed_with o e)
  ∧ invocations is_image_write (out_trace o) = 0
  ∧ invocations is_image_verify (out_trace o) = 0
  ∧ invocations is_descriptor_read (out_trace o) = 1
  ∧ (ifd_rc p = 0%Z → layout_has_region (ifd_layout p) bios_region = true →
     failed_with o (size_mismatch_error (N.of_nat (length blob)) (device_flash_size device))
     ∧ invocations is_layout_set (out_trace o) = 1).
Proof.
  intros Hfw Hsz. apply N.eqb_neq in Hsz. unfold failed_with, size_mismatch_error.
  exec; (split; [eauto|]); do 3 (split; [reflexivity|]); intros Hrc Hbios.
  - pose proof (include_region_present _ _ _ _ Heqp0 Hbios). subst. done.
  - pose proof (include_region_present _ _ _ _ Heqp0 Hbios). subst. discriminate.
  - apply Z.eqb_neq in Heqb. done.
Qed.

(** C1 holds on an image of two bytes for a flash of four. *)
Lemma C1_size_gate_precedes_write_witness :
  let o := fu_flashrom_internal_device_write_firmware
             Example.good Example.device Example.short_firmware Example.fresh in
  invocations is_image_write (out_trace o) = 0
  ∧ invocations is_image_verify (out_trace o) = 0
  ∧ invocations is_descriptor_read (out_trace o) = 1
  ∧ failed_with o (size_mismatch_error 2 4)
  ∧ invocations is_layout_set (out_trace o) = 1.
Proof.
  destruct (C1_size_gate_precedes_write Example.good Example.device
              Example.short_firmware Example.short_image Example.fresh)
    as (_ & Hwrite & Hverify & Hread & Hsize).
  - reflexivity.
  - vm_compute. discriminate.
  - split; [exact Hwrite|]. split; [exact Hverify|]. split; [exact Hread|].
    apply Hsize; reflexivity.
Defined.

(** C1 as stated fails: on an image of the wrong size the hook reports
    the size error, but it has read the descriptor (and restricted and
    activated the layout) before it compared the sizes. *)
Lemma C1_size_gate_counterexample :
  let o := fu_flashrom_internal_device_write_firmware
             Example.good Example.device Example.short_firmware Example.fresh in
  N.of_nat (length Example.short_image) ≠ device_flash_size Example.device
  ∧ failed_with o (size_mismatch_error 2 4)
  ∧ out_trace o = [EvProgressSetId (G_STRLOC 123);
                   EvProgressAddFlag FU_PROGRESS_FLAG_GUESSED;
                   EvProgressAddStep FWUPD_STATUS_DEVICE_WRITE 90;
                   EvProgressAddStep FWUPD_STATUS_DEVICE_VERIFY 10;
                   EvLayoutReadFromIfd;
                   EvLayoutIncludeRegion 0 bios_region;
                   EvLayoutSet 0]
  ∧ ¬ (invocations is_descriptor_read (out_trace o) = 0).
Proof. vm_compute. repeat split; discriminate. Qed.

(** ** The backup hook *)

(** C2.  If a file already exists at the backup path, [prepare] returns
    success at once, with no call through the flash context and no file
    write, and leaves the world as it was.  Two calls in succession from a
    state without backup, the first of them successful, read the chip
    once and write the file once; the second call succeeds and changes
    nothing. *)
Theorem C2_backup_idempotent p device w :
  (fs_parents_exist (w_fs w) →
   is_Some (fs_files (w_fs w) !! backup_artifact_path p device) →
   let o := fu_flashrom_internal_device_prepare p device w in
   succeeded o
   ∧ out_world o = w
   ∧ invocations is_flash_access (out_trace o) = 0
   ∧ invocations is_file_write (out_trace o) = 0)
  ∧ (∀ p', localstatedir_pkg p' = localstatedir_pkg p →
     file_test_exists (w_fs w) (backup_artifact_path p device) = false →
     let o1 := fu_flashrom_internal_device_prepare p device w in
     succeeded o1 →
     let o2 := fu_flashrom_internal_device_prepare p' device (out_world o1) in
     succeeded o2
     ∧ out_world o2 = out_world o1
     ∧ invocations is_flash_access (out_trace o2) = 0
     ∧ invocations is_image_read (out_trace o1 ++ out_trace o2) = 1
     ∧ invocations is_file_write (out_trace o1 ++ out_trace o2) = 1).
Proof.
  split.
  - intros Hfs Hfile o. subst o.
    rewrite (prepare_backup_present p device w);
      [| by apply Hfs | by apply file_test_exists_file].
    unfold succeeded. cbn. eauto.
  - intros p' Hp' Habsent o1 Hok. subst o1.
    destruct (prepare_backup_created p device w Habsent Hok) as (l' & _ & _ & ->).
    cbn [out_world out_trace].
    assert (backup_artifact_path p' device = backup_artifact_path p device) as Hpath
      by (unfold backup_artifact_path; by rewrite Hp').
    cbv zeta. rewrite prepare_backup_present; rewrite Hpath.
    + unfold succeeded. cbn. eauto 6.
    + cbn. apply elem_of_union_l, elem_of_singleton. reflexivity.
    + apply file_test_exists_file. cbn. rewrite lookup_insert_eq. eauto.
Qed.

(** C2 on a disk that holds the backup, and on an empty disk. *)
Lemma C2_backup_idempotent_witness :
  (let o := fu_flashrom_internal_device_prepare
              Example.good Example.device Example.backed_up in
   succeeded o ∧ out_world o = Example.backed_up
   ∧ invocations is_flash_access (out_trace o) = 0
   ∧ invocations is_file_write (out_trace o) = 0)
  ∧ (let o1 := fu_flashrom_internal_device_prepare
                 Example.good Example.device Example.fresh in
     let o2 := fu_flashrom_internal_device_prepare
                 Example.good Example.device (out_world o1) in
     succeeded o2 ∧ out_world o2 = out_world o1
     ∧ invocations is_flash_access (out_trace o2) = 0
     ∧ invocations is_image_read (out_trace o1 ++ out_trace o2) = 1
     ∧ invocations is_file_write (out_trace o1 ++ out_trace o2) = 1).
Proof.
  split.
  - apply (proj1 (C2_backup_idempotent Example.good Example.device Example.backed_up)).
    + intros filename [data Hdata]. cbn in Hdata.
      apply lookup_singleton_Some in Hdata as [<- _].
      apply (bool_decide_unpack _). vm_compute. exact I.
    + exists Example.chip. vm_compute. reflexivity.
  - apply (proj2 (C2_backup_idempotent Example.good Example.device Example.fresh)
             Example.good).
    + reflexivity.
    + vm_compute. reflexivity.
    + exists tt. vm_compute. reflexivity.
Defined.



(** C10.  [prepare] never calls the layout release primitive.  When it
    creates a backup it reads a descriptor layout, restricts it to the
    bios region and installs it in the flash context, and on return that
    layout is still allocated and still installed; on every exit after a
    successful descriptor read the layout is still allocated. *)
Theorem C10_prepare_keeps_layout p device w :
  let o := fu_flashrom_internal_device_prepare p device w in
  let h := w_next_layout w in
  invocations is_layout_release (out_trace o) = 0
  ∧ (ifd_rc p = 0%Z → invocations is_descriptor_read (out_trace o) = 1 →
     is_Some (w_layouts (out_world o) !! h))
  ∧ (file_test_exists (w_fs w) (backup_artifact_path p device) = false →
     succeeded o →
     out_trace o = [EvMkdirParent (backup_artifact_path p device);
                    EvFileTest (backup_artifact_path p device);
                    EvLayoutReadFromIfd;
                    EvLayoutIncludeRegion h bios_region;
                    EvLayoutSet h;
                    EvImageRead (device_flash_size device);
                    EvSetContents (backup_artifact_path p device) (backup_bytes p device)]
     ∧ w_layouts (out_world o) !! h
       = Some (snd (layout_include_region (ifd_layout p) bios_region))
     ∧ layout_includes (snd (layout_include_region (ifd_layout p) bios_region))
                       bios_region = true
     ∧ w_flashctx_layout (out_world o) = Some h).
Proof.
  intros o h. subst o h. split; [|split].
  - exec; reflexivity.
  - intros Hrc. apply Z.eqb_eq in Hrc.
    exec; cbn; intros Hcount; try discriminate.
    all: by eexists.
  - intros Habsent Hok.
    destruct (prepare_backup_created p device w Habsent Hok) as (l' & Hinc & _ & ->).
    cbn [out_world out_trace w_layouts w_flashctx_layout]. rewrite Hinc. cbn [snd].
    split; [reflexivity|]. split; [apply lookup_insert_eq|]. split; [|reflexivity].
    by apply (include_region_included (ifd_layout p)).
Qed.

(** C10 on an empty disk. *)
Lemma C10_prepare_keeps_layout_witness :
  let o := fu_flashrom_internal_device_prepare
             Example.good Example.device Example.fresh in
  invocations is_layout_release (out_trace o) = 0
  ∧ is_Some (w_layouts (out_world o) !! 0)
  ∧ w_flashctx_layout (out_world o) = Some 0.
Proof.
  destruct (C10_prepare_keeps_layout Example.good Example.device Example.fresh)
    as (Hnone & Hlive & Hrun).
  split; [exact Hnone|]. split.
  - apply Hlive; vm_compute; reflexivity.
  - apply Hrun; [vm_compute; reflexivity | exists tt; vm_compute; reflexivity].
Defined.

(** ** Region restriction *)

(** C4.  When the descriptor layout has no bios region, restricting it
    fails and both hooks return the "invalid region name" error
    (NOT_SUPPORTED): no layout is installed in the flash context, and the
    chip is neither written, verified nor read.  The write hook gets
    there whenever the firmware has a payload, the backup hook whenever
    no backup exists and the parent directory can be ensured. *)
Theorem C4_missing_region p device firmware w :
  ifd_rc p = 0%Z →
  layout_has_region (ifd_layout p) bios_region = false →
  fst (layout_include_region (ifd_layout p) bios_region) ≠ 0%Z
  ∧ (∀ blob, firmware_bytes firmware = Ok blob →
     let o := fu_flashrom_internal_device_write_firmware p device firmware w in
     failed_with o invalid_region_error
     ∧ invocations is_layout_set (out_trace o) = 0
     ∧ w_flashctx_layout (out_world o) = w_flashctx_layout w
     ∧ invocations is_image_write (out_trace o) = 0
     ∧ invocations is_image_verify (out_trace o) = 0)
  ∧ (file_test_exists (w_fs w) (backup_artifact_path p device) = false →
     g_path_get_dirname (backup_artifact_path p device) ∈ fs_dirs (w_fs w)
     ∨ mkdir_failure p = None →
     let o := fu_flashrom_internal_device_prepare p device w in
     failed_with o invalid_region_error
     ∧ invocations is_layout_set (out_trace o) = 0
     ∧ w_flashctx_layout (out_world o) = w_flashctx_layout w
     ∧ invocations is_image_read (out_trace o) = 0
     ∧ invocations is_file_write (out_trace o) = 0).
Proof.
  intros Hrc Hbios. apply Z.eqb_eq in Hrc.
  pose proof (layout_include_region_rc (ifd_layout p) bios_region) as Hfst.
  rewrite Hbios in Hfst.
  destruct (layout_include_region (ifd_layout p) bios_region) as [rc l'] eqn:Hinc.
  cbn [fst] in Hfst. subst rc.
  split; [cbn; discriminate|]. split.
  - intros blob Hfw. unfold failed_with, invalid_region_error.
    exec. cbn. repeat split.
  - intros Habsent Hdir.
    pose proof (file_test_exists_mkdir (w_fs w) _ _ (backup_path_not_own_parent p device))
      as Hmk.
    rewrite Habsent in Hmk.
    unfold failed_with, invalid_region_error.
    exec; cbn; try (repeat split; fail).
    destruct Hdir as [Hdir | Hdir]; [|congruence].
    apply bool_decide_eq_false in Heqb. done.
Qed.

(** C4 on a descriptor with the regions fd and me only. *)
Lemma C4_missing_region_witness :
  (let o := fu_flashrom_internal_device_write_firmware
              Example.no_bios Example.device Example.firmware Example.fresh in
   failed_with o invalid_region_error
   ∧ invocations is_layout_set (out_trace o) = 0
   ∧ w_flashctx_layout (out_world o) = None
   ∧ invocations is_image_write (out_trace o) = 0
   ∧ invocations is_image_verify (out_trace o) = 0)
  ∧ (let o := fu_flashrom_internal_device_prepare
                Example.no_bios Example.device Example.fresh in
     failed_with o invalid_region_error
     ∧ invocations is_layout_set (out_trace o) = 0
     ∧ w_flashctx_layout (out_world o) = None
     ∧ invocations is_image_read (out_trace o) = 0
     ∧ invocations is_file_write (out_trace o) = 0).
Proof.
  destruct (C4_missing_region Example.no_bios Example.device Example.firmware
              Example.fresh) as (_ & Hwrite & Hbackup).
  - reflexivity.
  - vm_compute. reflexivity.
  - split.
    + apply (Hwrite Example.image). reflexivity.
    + apply Hbackup; [vm_compute; reflexivity | right; reflexivity].
Defined.

(** ** The write hook: write, verify, progress *)

(** C5.  The verify primitive is invoked only after the write primitive
    has been invoked and has returned 0.  At every point of the run (after
    any number of calls of the trace) the write phase is complete only if
    the write primitive has been invoked and returned 0, and the verify
    phase is complete only if the write phase is and the verify primitive
    has been invoked and returned 0.  When verify fails the hook returns
    the "image verify failed" error with the write phase complete and the
    verify phase not. *)
Theorem C5_verify_after_write p device firmware w id :
  w_progress w = fu_progress_new id →
  let o := fu_flashrom_internal_device_write_firmware p device firmware w in
  (invocations is_image_verify (out_trace o) ≠ 0 →
   image_write_rc p = 0%Z
   ∧ ∃ t1 t2 t3 buf sz,
       out_trace o
       = (t1 ++ EvImageWrite buf sz :: t2 ++ EvImageVerify buf sz :: t3)%list)
  ∧ (∀ n, let before := take n (out_trace o) in
          let pr := progress_after before (w_progress w) in
          (phase_complete pr 0 →
           image_write_rc p = 0%Z ∧ invocations is_image_write before = 1)
          ∧ (phase_complete pr 1 →
             phase_complete pr 0
             ∧ image_verify_rc p = 0%Z ∧ invocations is_image_verify before = 1))
  ∧ w_progress (out_world o) = progress_after (out_trace o) (w_progress w)
  ∧ (reaches_write p device firmware →
     image_write_rc p = 0%Z → image_verify_rc p ≠ 0%Z →
     failed_with o image_verify_error
     ∧ phase_complete (w_progress (out_world o)) 0
     ∧ ¬ phase_complete (w_progress (out_world o)) 1).
Proof.
  intros Hpr o. subst o. split; [|split; [|split]].
  - exec; cbn; intros Hv; try done.
    all: apply Z.eqb_eq in Heqb2; (split; [done|]).
    all: by eexists [_; _; _; _; _; _; _], [_], _, _, _.
  - intros n. rewrite Hpr. unfold phase_complete.
    exec.
    all: do 14 (destruct n as [|n]; [ledger_case|]).
    all: ledger_case.
  - exec; reflexivity.
  - intros (blob & l' & Hfw & Hifd & Hinc & Hsz)%reaches_write_tests Hwrite Hverify.
    apply Z.eqb_eq in Hwrite. apply Z.eqb_neq in Hverify.
    unfold failed_with, image_verify_error, phase_complete.
    exec. rewrite Hpr. vm_compute. repeat split; lia.
Qed.

(** C5 on a chip whose verify reports a mismatch. *)
Lemma C5_verify_after_write_witness :
  let o := fu_flashrom_internal_device_write_firmware
             Example.verify_fails Example.device Example.firmware Example.fresh in
  failed_with o image_verify_error
  ∧ phase_complete (w_progress (out_world o)) 0
  ∧ ¬ phase_complete (w_progress (out_world o)) 1.
Proof.
  destruct (C5_verify_after_write Example.verify_fails Example.device Example.firmware
              Example.fresh "engine" eq_refl) as (_ & _ & _ & Hfail).
  apply Hfail.
  - exists Example.image. repeat split; reflexivity.
  - reflexivity.
  - discriminate.
Defined.

(** ** The write hook: CMOS reset *)

(** The reset-cmos flag is bit 0 of the private flags. *)
Lemma reset_cmos_flag_bit device :
  fu_device_has_private_flag device FU_FLASHROM_DEVICE_FLAG_RESET_CMOS
  = Z.testbit (device_private_flags device) 0.
Proof.
  unfold fu_device_has_private_flag, FU_FLASHROM_DEVICE_FLAG_RESET_CMOS.
  change (Z.shiftl 1 0) with (Z.ones 1). rewrite Z.land_ones by lia.
  rewrite Z.bit0_odd. change (2 ^ 1)%Z with 2%Z. rewrite Zmod_odd.
  by destruct (Z.odd (device_private_flags device)).
Qed.

(** C6.  Without the reset-cmos flag the CMOS reset is never invoked and
    a written and verified image gives overall success.  With the flag, a
    written and verified image is followed by one call of the reset; if it
    fails, the hook fails with the error of the reset, its message
    prefixed with "failed CMOS reset: ". *)
Theorem C6_post_write_gating p device firmware w :
  let o := fu_flashrom_internal_device_write_firmware p device firmware w in
  let flag := fu_device_has_private_flag device FU_FLASHROM_DEVICE_FLAG_RESET_CMOS in
  (flag = false → invocations is_cmos_reset (out_trace o) = 0)
  ∧ (reaches_write p device firmware →
     image_write_rc p = 0%Z → image_verify_rc p = 0%Z →
     invocations is_image_write (out_trace o) = 1
     ∧ invocations is_image_verify (out_trace o) = 1
     ∧ (flag = false → succeeded o)
     ∧ (flag = true →
        invocations is_cmos_reset (out_trace o) = 1
        ∧ (cmos_reset_failure p = None → succeeded o)
        ∧ (∀ e, cmos_reset_failure p = Some e →
             failed_with o (mkGError (error_kind e)
                                     ("failed CMOS reset: " ++ error_message e))))).
Proof.
  intros o flag. subst o flag. split.
  - intros Hflag. exec; reflexivity.
  - intros (blob & l' & Hfw & Hifd & Hinc & Hsz)%reaches_write_tests Hwrite Hverify.
    apply Z.eqb_eq in Hwrite, Hverify.
    unfold succeeded, failed_with.
    exec; (split; [reflexivity|]); (split; [reflexivity|]).
    all: split; [intros Hf; first [discriminate Hf | eauto]|].
    all: intros Hf; try discriminate Hf; (split; [reflexivity|]).
    all: split; [intros Hn; first [discriminate Hn | eauto]|].
    all: intros e He; first [discriminate He | by injection He as <-].
Qed.

(** C6 on a device with the flag whose CMOS reset is refused. *)
Lemma C6_post_write_gating_witness :
  let o := fu_flashrom_internal_device_write_firmware
             Example.cmos_fails Example.device_reset_cmos Example.firmware
             Example.fresh in
  invocations is_image_write (out_trace o) = 1
  ∧ invocations is_image_verify (out_trace o) = 1
  ∧ failed_with o (mkGError (ForeignError "g-io-error-quark" 0)
                            "failed CMOS reset: port I/O refused").
Proof.
  destruct (C6_post_write_gating Example.cmos_fails Example.device_reset_cmos
              Example.firmware Example.fresh) as (_ & Hrun).
  destruct Hrun as (Hw & Hv & _ & Hset).
  - exists Example.image. repeat split; reflexivity.
  - reflexivity.
  - reflexivity.
  - split; [exact Hw|]. split; [exact Hv|].
    destruct (Hset eq_refl) as (_ & _ & Hfail).
    apply (Hfail Example.io_error). reflexivity.
Defined.

(** ** The write hook: the error of a failed verify *)

(** C7 (as amended).  A failed verify is reported as FWUPD_ERROR_WRITE
    with the message "image verify failed".  A failure of the write
    primitive carries the same code and differs in its message only
    ("image write failed, err=<rc>"); the errors the hook sets before the
    write (descriptor read, region, size) carry another code. *)
Theorem C7_verify_error_shares_write_code p device firmware w blob :
  firmware_bytes firmware = Ok blob →
  let o := fu_flashrom_internal_device_write_firmware p device firmware w in
  (invocations is_image_verify (out_trace o) = 1 → image_verify_rc p ≠ 0%Z →
   failed_with o image_verify_error)
  ∧ (∀ e, failed_with o e → invocations is_image_verify (out_trace o) = 0 →
       e ≠ image_verify_error
       ∧ (invocations is_image_write (out_trace o) = 1 →
          e = image_write_error (image_write_rc p)
          ∧ error_kind e = error_kind image_verify_error
          ∧ error_message e ≠ error_message image_verify_error)
       ∧ (invocations is_image_write (out_trace o) = 0 →
          error_kind e ≠ error_kind image_verify_error
          ∧ (e = descriptor_read_error ∨ e = invalid_region_error
             ∨ e = size_mismatch_error (N.of_nat (length blob))
                                       (device_flash_size device)))).
Proof.
  intros Hfw o. subst o. unfold failed_with. split.
  - intros Hcount Hrc. apply Z.eqb_neq in Hrc. revert Hcount.
    exec; cbn; intros Hcount; try discriminate. reflexivity.
  - intros e. exec; cbn; intros He Hcount; try discriminate.
    all: injection He as <-.
    all: split; [discriminate|].
    all: split; intros Hw; try discriminate Hw.
    all: repeat split; try discriminate; eauto.
Qed.

(** C7 on a chip whose write primitive fails with status 2. *)
Lemma C7_verify_error_shares_write_code_witness :
  let o := fu_flashrom_internal_device_write_firmware
             Example.write_fails Example.device Example.firmware Example.fresh in
  failed_with o (image_write_error 2)
  ∧ image_write_error 2 ≠ image_verify_error
  ∧ error_kind (image_write_error 2) = error_kind image_verify_error
  ∧ error_message (image_write_error 2) ≠ error_message image_verify_error.
Proof.
  destruct (C7_verify_error_shares_write_code Example.write_fails Example.device
              Example.firmware Example.fresh Example.image eq_refl) as (_ & Hearlier).
  assert (failed_with (fu_flashrom_internal_device_write_firmware
                         Example.write_fails Example.device Example.firmware
                         Example.fresh) (image_write_error 2)) as Hfail
    by (vm_compute; reflexivity).
  destruct (Hearlier (image_write_error 2) Hfail eq_refl) as (Hne & Hwrite & _).
  destruct (Hwrite eq_refl) as (_ & Hkind & Hmessage).
  split; [exact Hfail|]. split; [exact Hne|]. split; [exact Hkind | exact Hmessage].
Defined.

(** C7 as stated fails: the error of a failed verify and the error of a
    failed write have the same domain and code, so [g_error_matches]
    cannot tell one from the other. *)
Lemma C7_verify_error_counterexample :
  let o_verify := fu_flashrom_internal_device_write_firmware
                    Example.verify_fails Example.device Example.firmware Example.fresh in
  let o_write := fu_flashrom_internal_device_write_firmware
                   Example.write_fails Example.device Example.firmware Example.fresh in
  ∃ e_verify e_write,
    failed_with o_verify e_verify
    ∧ failed_with o_write e_write
    ∧ invocations is_image_verify (out_trace o_verify) = 1
    ∧ invocations is_image_verify (out_trace o_write) = 0
    ∧ error_kind e_verify = error_kind e_write
    ∧ ∀ code, g_error_matches e_verify code = g_error_matches e_write code.
Proof.
  exists image_verify_error, (image_write_error 2).
  repeat split; vm_compute; reflexivity.
Qed.

(** ** The write hook: the progress ledger *)

(** C8.  The hook registers two phases on the progress object it is
    given, write with weight 90 and then verify with weight 10.  On the
    success path each is marked complete once: the first step is done
    after the write and before the verify, the second after the verify,
    and there is no third. *)
Theorem C8_progress_ledger p device firmware w id :
  w_progress w = fu_progress_new id →
  let o := fu_flashrom_internal_device_write_firmware p device firmware w in
  (∀ blob, firmware_bytes firmware = Ok blob →
     progress_steps (w_progress (out_world o))
     = [(FWUPD_STATUS_DEVICE_WRITE, 90%N); (FWUPD_STATUS_DEVICE_VERIFY, 10%N)])
  ∧ (succeeded o →
     ∃ blob, firmware_bytes firmware = Ok blob
       ∧ select is_phase_event (out_trace o)
         = [EvProgressAddStep FWUPD_STATUS_DEVICE_WRITE 90;
            EvProgressAddStep FWUPD_STATUS_DEVICE_VERIFY 10;
            EvImageWrite blob (N.of_nat (length blob));
            EvProgressStepDone;
            EvImageVerify blob (N.of_nat (length blob));
            EvProgressStepDone]
       ∧ invocations is_step_done (out_trace o) = 2
       ∧ progress_step_now (w_progress (out_world o)) = 2
       ∧ phase_complete (w_progress (out_world o)) 0
       ∧ phase_complete (w_progress (out_world o)) 1).
Proof.
  intros Hpr o. subst o. unfold succeeded, phase_complete. split.
  - intros blob Hfw. exec; rewrite Hpr; reflexivity.
  - exec; intros [? Ha]; try discriminate.
    all: eexists; (split; [reflexivity|]).
    all: rewrite Hpr; vm_compute; repeat split; lia.
Qed.

(** C8 on a platform where every primitive succeeds. *)
Lemma C8_progress_ledger_witness :
  let o := fu_flashrom_internal_device_write_firmware
             Example.good Example.device Example.firmware Example.fresh in
  progress_steps (w_progress (out_world o))
  = [(FWUPD_STATUS_DEVICE_WRITE, 90%N); (FWUPD_STATUS_DEVICE_VERIFY, 10%N)]
  ∧ invocations is_step_done (out_trace o) = 2
  ∧ progress_step_now (w_progress (out_world o)) = 2.
Proof.
  destruct (C8_progress_ledger Example.good Example.device Example.firmware
              Example.fresh "engine" eq_refl) as (Hsteps & Hdone).
  split; [apply (Hsteps Example.image); reflexivity|].
  destruct Hdone as (blob & _ & _ & Hcount & Hnow & _).
  - exists tt. vm_compute. reflexivity.
  - split; [exact Hcount | exact Hnow].
Defined.

(** ** The write hook: the layout *)

(** C9.  The layout read from the descriptor is released exactly when
    the write and the verify both succeed.  On every exit before that
    (missing region, size mismatch, write failure, verify failure) the
    hook fails without calling the release, and the layout is still
    allocated when it returns. *)
Theorem C9_layout_release p device firmware w blob :
  firmware_bytes firmware = Ok blob →
  ifd_rc p = 0%Z →
  let o := fu_flashrom_internal_device_write_firmware p device firmware w in
  let h := w_next_layout w in
  (layout_has_region (ifd_layout p) bios_region = true →
   N.of_nat (length blob) = device_flash_size device →
   image_write_rc p = 0%Z → image_verify_rc p = 0%Z →
   select is_layout_release (out_trace o) = [EvLayoutRelease h]
   ∧ w_layouts (out_world o) !! h = None)
  ∧ (layout_has_region (ifd_layout p) bios_region = false
     ∨ N.of_nat (length blob) ≠ device_flash_size device
     ∨ image_write_rc p ≠ 0%Z
     ∨ image_verify_rc p ≠ 0%Z →
     (∃ e, failed_with o e)
     ∧ invocations is_layout_release (out_trace o) = 0
     ∧ is_Some (w_layouts (out_world o) !! h)).
Proof.
  intros Hfw Hifd o h. subst o h. apply Z.eqb_eq in Hifd. unfold failed_with. split.
  - intros Hbios Hsz Hwrite Hverify.
    apply N.eqb_eq in Hsz. apply Z.eqb_eq in Hwrite, Hverify.
    destruct (layout_include_region (ifd_layout p) bios_region) as [rc l'] eqn:Hinc.
    pose proof (include_region_present _ _ _ _ Hinc Hbios). subst rc.
    exec; (split; [reflexivity|]); cbn; apply lookup_delete_eq.
  - intros Hcase.
    exec; cbn; try (split; [eauto|]; split; [reflexivity|]; by eexists).
    all: destruct Hcase as [Hbios | [Hsz | [Hwrite | Hverify]]].
    all: try (apply N.eqb_eq in Heqb0; done).
    all: try (apply Z.eqb_eq in Heqb1; done).
    all: try (apply Z.eqb_eq in Heqb2; done).
    all: pose proof (include_region_absent _ _ _ _ Heqp0 Hbios); subst; discriminate.
Qed.

(** C9 on a chip whose write primitive fails. *)
Lemma C9_layout_release_witness :
  let o := fu_flashrom_internal_device_write_firmware
             Example.write_fails Example.device Example.firmware Example.fresh in
  (∃ e, failed_with o e)
  ∧ invocations is_layout_release (out_trace o) = 0
  ∧ is_Some (w_layouts (out_world o) !! 0).
Proof.
  destruct (C9_layout_release Example.write_fails Example.device Example.firmware
              Example.fresh Example.image eq_refl eq_refl) as (_ & Hkept).
  apply Hkept. right. right. left. discriminate.
Defined.

(** * Further properties of the two hooks *)

(** ** The backup hook and the file system *)

Lemma file_test_absent_no_file fs filename :
  file_test_exists fs filename = false → fs_files fs !! filename = None.
Proof.
  unfold file_test_exists. intros [Hfile _]%orb_false_elim.
  apply bool_decide_eq_false in Hfile. by apply eq_None_not_Some.
Qed.

Lemma file_test_mkdir_files fs parent filename :
  file_test_exists (mkFileSystem ({[parent]} ∪ fs_dirs fs) (fs_files fs)) filename = false →
  fs_files fs !! filename = None.
Proof. intros H. by apply file_test_absent_no_file in H. Qed.

(** X1.  [prepare] never overwrites or removes a file: whatever was on
    disk before a run is there afterwards with the same contents, on
    every exit. *)
Theorem prepare_keeps_existing_files p device w filename data :
  fs_files (w_fs w) !! filename = Some data →
  fs_files (w_fs (out_world (fu_flashrom_internal_device_prepare p device w))) !! filename
  = Some data.
Proof.
  intros Hfile. exec; cbn; try done.
  - apply file_test_absent_no_file in Heqb0.
    rewrite lookup_insert_ne; [done | congruence].
  - apply file_test_mkdir_files in Heqb0.
    rewrite lookup_insert_ne; [done | congruence].
Qed.

Lemma prepare_keeps_existing_files_witness :
  fs_files (w_fs (out_world (fu_flashrom_internal_device_prepare
                               Example.good Example.device Example.backed_up)))
    !! "/var/lib/fwupd/builder/flashrom-a1b2c3.bin"
  = Some Example.chip.
Proof.
  apply (prepare_keeps_existing_files Example.good Example.device Example.backed_up).
  vm_compute. reflexivity.
Defined.

(** X2.  A failed [prepare] leaves the files as they were: no partial
    backup is left behind, and a backup that was missing is still
    missing, so that the next run tries again. *)
Theorem prepare_failure_keeps_files p device w e :
  failed_with (fu_flashrom_internal_device_prepare p device w) e →
  let o := fu_flashrom_internal_device_prepare p device w in
  fs_files (w_fs (out_world o)) = fs_files (w_fs w)
  ∧ (file_test_exists (w_fs w) (backup_artifact_path p device) = false →
     file_test_exists (w_fs (out_world o)) (backup_artifact_path p device) = false).
Proof.
  unfold failed_with.
  pose proof (file_test_exists_mkdir (w_fs w) _ _ (backup_path_not_own_parent p device))
    as Hmk.
  exec; cbn; intros He; try discriminate; (split; [reflexivity|]); intros Habsent.
  all: try done.
  all: by rewrite Hmk.
Qed.

Lemma prepare_failure_keeps_files_witness :
  let o := fu_flashrom_internal_device_prepare
             Example.read_fails Example.device Example.fresh in
  fs_files (w_fs (out_world o)) = fs_files (w_fs Example.fresh)
  ∧ file_test_exists (w_fs (out_world o))
      (backup_artifact_path Example.read_fails Example.device) = false.
Proof.
  destruct (prepare_failure_keeps_files Example.read_fails Example.device Example.fresh
              backup_read_error) as (Hfiles & Habsent).
  - vm_compute. reflexivity.
  - split; [exact Hfiles|]. apply Habsent. vm_compute. reflexivity.
Defined.

(** X3.  After a successful [prepare] something exists at the backup
    path, whether the run found it or created it. *)
Theorem prepare_success_backup_exists p device w :
  succeeded (fu_flashrom_internal_device_prepare p device w) →
  file_test_exists
    (w_fs (out_world (fu_flashrom_internal_device_prepare p device w)))
    (backup_artifact_path p device) = true.
Proof.
  unfold succeeded.
  exec; cbn; intros [u Hu]; try discriminate; try done.
  all: apply file_test_exists_file; cbn; rewrite lookup_insert_eq; by eexists.
Qed.

Lemma prepare_success_backup_exists_witness :
  file_test_exists
    (w_fs (out_world (fu_flashrom_internal_device_prepare
                        Example.good Example.device Example.fresh)))
    (backup_artifact_path Example.good Example.device) = true.
Proof.
  apply (prepare_success_backup_exists Example.good Example.device Example.fresh).
  exists tt. vm_compute. reflexivity.
Defined.

Lemma fs_parents_exist_mkdir fs parent :
  fs_parents_exist fs →
  fs_parents_exist (mkFileSystem ({[parent]} ∪ fs_dirs fs) (fs_files fs)).
Proof. intros Hfs filename Hfile. cbn. apply elem_of_union_r. by apply Hfs. Qed.

Lemma fs_parents_exist_write fs filename data :
  fs_parents_exist fs →
  g_path_get_dirname filename ∈ fs_dirs fs →
  fs_parents_exist (mkFileSystem (fs_dirs fs) (<[filename := data]> (fs_files fs))).
Proof.
  intros Hfs Hdir other [d Hother]. cbn in *.
  destruct (decide (filename = other)) as [<- | Hne]; [done|].
  rewrite lookup_insert_ne in Hother by done. apply Hfs. by eexists.
Qed.

(** X4.  [prepare] keeps the file system well formed: if every file lay
    in an existing directory before the run, so does every file after
    it, the new backup included, on every exit. *)
Theorem prepare_keeps_parents_exist p device w :
  fs_parents_exist (w_fs w) →
  fs_parents_exist (w_fs (out_world (fu_flashrom_internal_device_prepare p device w))).
Proof.
  intros Hfs. exec; cbn; try done.
  all: try by apply fs_parents_exist_mkdir.
  - apply bool_decide_eq_true in Heqb.
    exact (fs_parents_exist_write (w_fs w) _ _ Hfs Heqb).
  - pose proof (fs_parents_exist_write
                  (mkFileSystem ({[g_path_get_dirname (backup_artifact_path p device)]}
                                 ∪ fs_dirs (w_fs w)) (fs_files (w_fs w)))
                  (backup_artifact_path p device)
                  (g_bytes_new_static
                     (read_into (image_read_data p) (g_malloc0 (device_flash_size device)))
                     (device_flash_size device))
                  (fs_parents_exist_mkdir _ _ Hfs)) as Hwrite.
    apply Hwrite. cbn. apply elem_of_union_l, elem_of_singleton. reflexivity.
Qed.

Lemma prepare_keeps_parents_exist_witness :
  fs_parents_exist
    (w_fs (out_world (fu_flashrom_internal_device_prepare
                        Example.good Example.device Example.fresh))).
Proof.
  apply (prepare_keeps_parents_exist Example.good Example.device Example.fresh).
  intros filename [data Hdata]. cbn in Hdata. by rewrite lookup_empty in Hdata.
Defined.

(** ** The error exits of the backup hook *)

(** X5.  When the parent directory is missing and cannot be created,
    [prepare] returns the error of the directory creation as it is, after
    that one call: nothing is tested, read or written, and the world is
    as before. *)
Theorem prepare_mkdir_failure p device w e :
  g_path_get_dirname (backup_artifact_path p device) ∉ fs_dirs (w_fs w) →
  mkdir_failure p = Some e →
  fu_flashrom_internal_device_prepare p device w
  = mkOutcome (Err e) w [EvMkdirParent (backup_artifact_path p device)].
Proof.
  intros Hdir Hmk. apply (bool_decide_eq_false_2 _) in Hdir.
  exec. reflexivity.
Qed.

Lemma prepare_mkdir_failure_witness :
  fu_flashrom_internal_device_prepare Example.read_only_disk Example.device Example.fresh
  = mkOutcome (Err Example.disk_error) Example.fresh
      [EvMkdirParent "/var/lib/fwupd/builder/flashrom-a1b2c3.bin"].
Proof.
  apply (prepare_mkdir_failure Example.read_only_disk Example.device Example.fresh).
  - apply not_elem_of_empty.
  - reflexivity.
Defined.

(** X6.  Without a backup, a descriptor that cannot be read makes
    [prepare] fail with FWUPD_ERROR_READ "failed to read layout from Intel
    ICH descriptor" right after that call: no layout is allocated or
    installed, the chip is not read and nothing is saved. *)
Theorem prepare_descriptor_failure p device w :
  file_test_exists (w_fs w) (backup_artifact_path p device) = false →
  parent_ensured p device w →
  ifd_rc p ≠ 0%Z →
  let o := fu_flashrom_internal_device_prepare p device w in
  failed_with o descriptor_read_error
  ∧ out_trace o = [EvMkdirParent (backup_artifact_path p device);
                   EvFileTest (backup_artifact_path p device);
                   EvLayoutReadFromIfd]
  ∧ w_layouts (out_world o) = w_layouts w
  ∧ w_next_layout (out_world o) = w_next_layout w
  ∧ w_flashctx_layout (out_world o) = w_flashctx_layout w.
Proof.
  intros Habsent Hparent Hrc. apply Z.eqb_neq in Hrc.
  pose proof (file_test_exists_mkdir (w_fs w) _ _ (backup_path_not_own_parent p device))
    as Hmk.
  rewrite Habsent in Hmk. unfold failed_with, descriptor_read_error.
  exec; cbn; try (repeat split; fail).
  destruct Hparent as [Hdir | Hdir]; [|congruence].
  by apply bool_decide_eq_false in Heqb.
Qed.

Lemma prepare_descriptor_failure_witness :
  let o := fu_flashrom_internal_device_prepare
             Example.no_descriptor Example.device Example.fresh in
  failed_with o descriptor_read_error
  ∧ out_trace o = [EvMkdirParent "/var/lib/fwupd/builder/flashrom-a1b2c3.bin";
                   EvFileTest "/var/lib/fwupd/builder/flashrom-a1b2c3.bin";
                   EvLayoutReadFromIfd]
  ∧ w_layouts (out_world o) = ∅
  ∧ w_next_layout (out_world o) = 0
  ∧ w_flashctx_layout (out_world o) = None.
Proof.
  apply (prepare_descriptor_failure Example.no_descriptor Example.device Example.fresh).
  - vm_compute. reflexivity.
  - right. reflexivity.
  - discriminate.
Defined.

(** X7.  Without a backup, a chip read that fails makes [prepare] fail
    with FWUPD_ERROR_READ "failed to back up original firmware": the file
    write is not attempted, and the restricted layout stays allocated and
    installed in the flash context. *)
Theorem prepare_read_failure p device w :
  file_test_exists (w_fs w) (backup_artifact_path p device) = false →
  parent_ensured p device w →
  ifd_rc p = 0%Z →
  layout_has_region (ifd_layout p) bios_region = true →
  image_read_rc p ≠ 0%Z →
  let o := fu_flashrom_internal_device_prepare p device w in
  failed_with o backup_read_error
  ∧ invocations is_image_read (out_trace o) = 1
  ∧ invocations is_file_write (out_trace o) = 0
  ∧ w_flashctx_layout (out_world o) = Some (w_next_layout w)
  ∧ w_layouts (out_world o) !! w_next_layout w
    = Some (snd (layout_include_region (ifd_layout p) bios_region)).
Proof.
  intros Habsent Hparent Hifd Hbios Hrc.
  apply Z.eqb_eq in Hifd. apply Z.eqb_neq in Hrc.
  pose proof (file_test_exists_mkdir (w_fs w) _ _ (backup_path_not_own_parent p device))
    as Hmk.
  rewrite Habsent in Hmk. unfold failed_with, backup_read_error.
  destruct (layout_include_region (ifd_layout p) bios_region) as [rc l'] eqn:Hinc.
  pose proof (include_region_present _ _ _ _ Hinc Hbios). subst rc.
  exec; cbn; try (repeat split; try reflexivity; apply lookup_insert_eq).
  destruct Hparent as [Hdir | Hdir]; [|congruence].
  by apply bool_decide_eq_false in Heqb.
Qed.

Lemma prepare_read_failure_witness :
  let o := fu_flashrom_internal_device_prepare
             Example.read_fails Example.device Example.fresh in
  failed_with o backup_read_error
  ∧ invocations is_image_read (out_trace o) = 1
  ∧ invocations is_file_write (out_trace o) = 0
  ∧ w_flashctx_layout (out_world o) = Some 0
  ∧ w_layouts (out_world o) !! 0
    = Some [mkRomentry 0 4095 false "fd"; mkRomentry 4096 8191 true "bios"].
Proof.
  apply (prepare_read_failure Example.read_fails Example.device Example.fresh).
  - vm_compute. reflexivity.
  - right. reflexivity.
  - reflexivity.
  - vm_compute. reflexivity.
  - discriminate.
Defined.

(** X8.  Without a backup, when the chip has been read and the file
    cannot be saved, [prepare] returns the error of the file write as it
    is: the chip was read once, one write was attempted with the bytes
    read, and no file has appeared. *)
Theorem prepare_persist_failure p device w e :
  file_test_exists (w_fs w) (backup_artifact_path p device) = false →
  parent_ensured p device w →
  ifd_rc p = 0%Z →
  layout_has_region (ifd_layout p) bios_region = true →
  image_read_rc p = 0%Z →
  set_contents_failure p = Some e →
  let o := fu_flashrom_internal_device_prepare p device w in
  failed_with o e
  ∧ select is_image_read (out_trace o) = [EvImageRead (device_flash_size device)]
  ∧ select is_file_write (out_trace o)
    = [EvSetContents (backup_artifact_path p device) (backup_bytes p device)]
  ∧ fs_files (w_fs (out_world o)) = fs_files (w_fs w).
Proof.
  intros Habsent Hparent Hifd Hbios Hrc Hset.
  apply Z.eqb_eq in Hifd, Hrc.
  pose proof (file_test_exists_mkdir (w_fs w) _ _ (backup_path_not_own_parent p device))
    as Hmk.
  rewrite Habsent in Hmk. unfold failed_with.
  destruct (layout_include_region (ifd_layout p) bios_region) as [rc l'] eqn:Hinc.
  pose proof (include_region_present _ _ _ _ Hinc Hbios). subst rc.
  exec; cbn; fold (backup_bytes p device); rewrite ?g_bytes_new_static_backup;
    try (repeat split; fail).
  destruct Hparent as [Hdir | Hdir]; [|congruence].
  by apply bool_decide_eq_false in Heqb.
Qed.

Lemma prepare_persist_failure_witness :
  let o := fu_flashrom_internal_device_prepare
             Example.disk_full Example.device Example.fresh in
  failed_with o Example.disk_error
  ∧ select is_image_read (out_trace o) = [EvImageRead 4]
  ∧ select is_file_write (out_trace o)
    = [EvSetContents "/var/lib/fwupd/builder/flashrom-a1b2c3.bin" Example.chip]
  ∧ fs_files (w_fs (out_world o)) = ∅.
Proof.
  apply (prepare_persist_failure Example.disk_full Example.device Example.fresh).
  - vm_compute. reflexivity.
  - right. reflexivity.
  - reflexivity.
  - vm_compute. reflexivity.
  - reflexivity.
  - reflexivity.
Defined.

(** X9.  [prepare] only reads: on no exit does it call the write or the
    verify primitive or the CMOS reset, and it leaves the caller's
    progress object alone. *)
Theorem prepare_never_writes_flash p device w :
  let o := fu_flashrom_internal_device_prepare p device w in
  invocations is_image_write (out_trace o) = 0
  ∧ invocations is_image_verify (out_trace o) = 0
  ∧ invocations is_cmos_reset (out_trace o) = 0
  ∧ invocations is_progress_call (out_trace o) = 0
  ∧ w_progress (out_world o) = w_progress w.
Proof. exec; repeat split. Qed.

(** ** The error exits of the write hook *)

(** X10.  A firmware without payload makes [write_firmware] return the
    error of [fu_firmware_get_bytes] as it is, before anything else: no
    call is made, and the progress object gets no step. *)
Theorem write_firmware_no_payload p device firmware w e :
  firmware_bytes firmware = Err e →
  fu_flashrom_internal_device_write_firmware p device firmware w
  = mkOutcome (Err e) w [].
Proof. intros Hfw. exec. reflexivity. Qed.

Lemma write_firmware_no_payload_witness :
  fu_flashrom_internal_device_write_firmware
    Example.good Example.device Example.empty_firmware Example.fresh
  = mkOutcome (Err Example.no_payload_error) Example.fresh [].
Proof.
  apply (write_firmware_no_payload Example.good Example.device Example.empty_firmware
           Example.fresh).
  reflexivity.
Defined.

(** X11.  A descriptor that cannot be read makes [write_firmware] fail
    with FWUPD_ERROR_READ "failed to read layout from Intel ICH
    descriptor": the two steps are registered on the progress object and
    none is done, no layout is allocated or installed, and the chip is
    not touched. *)
Theorem write_firmware_descriptor_failure p device firmware w blob :
  firmware_bytes firmware = Ok blob →
  ifd_rc p ≠ 0%Z →
  let o := fu_flashrom_internal_device_write_firmware p device firmware w in
  failed_with o descriptor_read_error
  ∧ out_trace o = [EvProgressSetId (G_STRLOC 123);
                   EvProgressAddFlag FU_PROGRESS_FLAG_GUESSED;
                   EvProgressAddStep FWUPD_STATUS_DEVICE_WRITE 90;
                   EvProgressAddStep FWUPD_STATUS_DEVICE_VERIFY 10;
                   EvLayoutReadFromIfd]
  ∧ progress_step_now (w_progress (out_world o)) = progress_step_now (w_progress w)
  ∧ w_layouts (out_world o) = w_layouts w
  ∧ w_flashctx_layout (out_world o) = w_flashctx_layout w.
Proof.
  intros Hfw Hrc. apply Z.eqb_neq in Hrc.
  unfold failed_with, descriptor_read_error. exec. repeat split.
Qed.

Lemma write_firmware_descriptor_failure_witness :
  let o := fu_flashrom_internal_device_write_firmware
             Example.no_descriptor Example.device Example.firmware Example.fresh in
  failed_with o descriptor_read_error
  ∧ invocations is_chip_io (out_trace o) = 0
  ∧ progress_step_now (w_progress (out_world o)) = 0
  ∧ w_layouts (out_world o) = ∅.
Proof.
  destruct (write_firmware_descriptor_failure Example.no_descriptor Example.device
              Example.firmware Example.fresh Example.image eq_refl)
    as (Hfail & Htrace & Hnow & Hlayouts & _).
  - discriminate.
  - split; [exact Hfail|]. split; [by rewrite Htrace|].
    split; [exact Hnow | exact Hlayouts].
Defined.

(** X12.  A failing write primitive makes [write_firmware] fail with
    FWUPD_ERROR_WRITE and the status of the primitive in the message, in
    decimal.  Verify is not called, no step is done on the progress
    object, and the layout stays installed in the flash context. *)
Theorem write_firmware_write_failure p device firmware w :
  reaches_write p device firmware →
  image_write_rc p ≠ 0%Z →
  let o := fu_flashrom_internal_device_write_firmware p device firmware w in
  failed_with o (mkGError (FWUPD_ERROR FWUPD_ERROR_WRITE)
                          ("image write failed, err=" ++ pretty (image_write_rc p)))
  ∧ invocations is_image_write (out_trace o) = 1
  ∧ invocations is_image_verify (out_trace o) = 0
  ∧ invocations is_step_done (out_trace o) = 0
  ∧ progress_step_now (w_progress (out_world o)) = progress_step_now (w_progress w)
  ∧ w_flashctx_layout (out_world o) = Some (w_next_layout w).
Proof.
  intros (blob & l' & Hfw & Hifd & Hinc & Hsz)%reaches_write_tests Hrc.
  apply Z.eqb_neq in Hrc. unfold failed_with. exec. repeat split.
Qed.

Lemma write_firmware_write_failure_witness :
  let o := fu_flashrom_internal_device_write_firmware
             Example.write_fails Example.device Example.firmware Example.fresh in
  failed_with o (mkGError (FWUPD_ERROR FWUPD_ERROR_WRITE) "image write failed, err=2")
  ∧ invocations is_image_write (out_trace o) = 1
  ∧ invocations is_image_verify (out_trace o) = 0
  ∧ invocations is_step_done (out_trace o) = 0
  ∧ progress_step_now (w_progress (out_world o)) = 0
  ∧ w_flashctx_layout (out_world o) = Some 0.
Proof.
  apply (write_firmware_write_failure Example.write_fails Example.device
           Example.firmware Example.fresh).
  - exists Example.image. repeat split; reflexivity.
  - discriminate.
Defined.

(** X13.  The two sizes of the size error are printed after a cast to
    32 bits: when the image and the flash differ by a multiple of 2^32
    the hook still fails, and its message shows the same number twice. *)
Theorem size_error_truncates_sizes p device firmware w blob :
  firmware_bytes firmware = Ok blob →
  ifd_rc p = 0%Z →
  layout_has_region (ifd_layout p) bios_region = true →
  N.of_nat (length blob) ≠ device_flash_size device →
  (N.of_nat (length blob) mod 2 ^ 32 = device_flash_size device mod 2 ^ 32)%N →
  let o := fu_flashrom_internal_device_write_firmware p device firmware w in
  let shown := HexString.of_N (N.of_nat (length blob) mod 2 ^ 32) in
  failed_with o (mkGError (FWUPD_ERROR FWUPD_ERROR_NOT_SUPPORTED)
                          ("invalid image size " ++ shown ++ ", expected " ++ shown)).
Proof.
  intros Hfw Hifd Hbios Hsz Hmod. apply Z.eqb_eq in Hifd. apply N.eqb_neq in Hsz.
  destruct (layout_include_region (ifd_layout p) bios_region) as [rc l'] eqn:Hinc.
  pose proof (include_region_present _ _ _ _ Hinc Hbios). subst rc.
  unfold failed_with. exec.
  unfold format_0x_x, guint_of_gsize. by rewrite <- Hmod.
Qed.

Lemma size_error_truncates_sizes_witness :
  failed_with (fu_flashrom_internal_device_write_firmware
                 Example.good Example.huge_device Example.short_firmware Example.fresh)
              (mkGError (FWUPD_ERROR FWUPD_ERROR_NOT_SUPPORTED)
                        "invalid image size 0x2, expected 0x2").
Proof.
  apply (size_error_truncates_sizes Example.good Example.huge_device
           Example.short_firmware Example.fresh Example.short_image).
  - reflexivity.
  - reflexivity.
  - vm_compute. reflexivity.
  - vm_compute. discriminate.
  - vm_compute. reflexivity.
Defined.

(** X14.  [write_firmware] returns [TRUE] exactly when there is a
    payload of the size of the flash, the descriptor is read and has the
    bios region, write and verify return 0, and the CMOS reset, if the
    flag asks for it, succeeds. *)
Theorem write_firmware_success_iff p device firmware w :
  succeeded (fu_flashrom_internal_device_write_firmware p device firmware w)
  ↔ reaches_write p device firmware
    ∧ image_write_rc p = 0%Z
    ∧ image_verify_rc p = 0%Z
    ∧ (fu_device_has_private_flag device FU_FLASHROM_DEVICE_FLAG_RESET_CMOS = true →
       cmos_reset_failure p = None).
Proof.
  unfold succeeded. split.
  - exec; intros [u Hu]; try discriminate.
    all: apply Z.eqb_eq in Heqb, Heqb2, Heqb3; apply N.eqb_eq in Heqb1.
    all: pose proof (layout_include_region_rc (ifd_layout p) bios_region) as Hrc.
    all: rewrite Heqp0 in Hrc; cbn [fst] in Hrc.
    all: destruct (layout_has_region (ifd_layout p) bios_region) eqn:Hbios;
      [|apply Z.eqb_eq in Heqb0; congruence].
    all: (split; [by exists a|]); (split; [done|]); (split; [done|]); done.
  - intros ((blob & l' & Hfw & Hifd & Hinc & Hsz)%reaches_write_tests
            & Hwrite & Hverify & Hreset).
    apply Z.eqb_eq in Hwrite, Hverify.
    exec; eauto.
    specialize (Hreset eq_refl). congruence.
Qed.

Lemma write_firmware_success_iff_witness :
  succeeded (fu_flashrom_internal_device_write_firmware
               Example.good Example.device_reset_cmos Example.firmware Example.fresh).
Proof.
  apply (write_firmware_success_iff Example.good Example.device_reset_cmos
           Example.firmware Example.fresh).
  split; [exists Example.image; repeat split; reflexivity|].
  repeat split; reflexivity.
Defined.

(** ** What the hooks never do *)

(** X15.  Neither hook repeats a call: in one run the descriptor is
    read, a layout installed or released, the chip read, written or
    verified, the backup saved and the CMOS reset at most once each. *)
Theorem hooks_call_at_most_once p device firmware w (o : Outcome ()) :
  o = fu_flashrom_internal_device_prepare p device w
  ∨ o = fu_flashrom_internal_device_write_firmware p device firmware w →
  Forall (λ f, (invocations f (out_trace o) ≤ 1)%nat)
    [is_descriptor_read; is_layout_set; is_layout_release; is_image_read;
     is_image_write; is_image_verify; is_file_write; is_cmos_reset].
Proof.
  intros [-> | ->]; exec; repeat constructor.
Qed.

Lemma hooks_call_at_most_once_witness :
  Forall (λ f, invocations f
                 (out_trace (fu_flashrom_internal_device_write_firmware
                               Example.cmos_fails Example.device_reset_cmos
                               Example.firmware Example.fresh)) ≤ 1)%nat
    [is_descriptor_read; is_layout_set; is_layout_release; is_image_read;
     is_image_write; is_image_verify; is_file_write; is_cmos_reset].
Proof.
  apply (hooks_call_at_most_once Example.cmos_fails Example.device_reset_cmos
           Example.firmware Example.fresh).
  right. reflexivity.
Defined.

(** X16.  [write_firmware] stays away from the disk and never reads the
    chip image: the file system is as before on every exit, and neither
    the result nor the calls depend on what is on disk, so the hook does
    not itself check that a backup exists. *)
Theorem write_firmware_ignores_disk p device firmware w fs :
  let o := fu_flashrom_internal_device_write_firmware p device firmware w in
  let o' := fu_flashrom_internal_device_write_firmware p device firmware (set_fs fs w) in
  w_fs (out_world o) = w_fs w
  ∧ invocations is_file_system_call (out_trace o) = 0
  ∧ invocations is_image_read (out_trace o) = 0
  ∧ out_result o' = out_result o
  ∧ out_trace o' = out_trace o.
Proof. exec; repeat split. Qed.

(** X17.  Whenever the write primitive is called, the calls just before
    it are the descriptor read, the restriction of that layout to the
    bios region and its installation in the flash context, and the
    buffer written is the whole payload, of the size of the flash. *)
Theorem write_is_scoped_to_bios p device firmware w :
  let o := fu_flashrom_internal_device_write_firmware p device firmware w in
  invocations is_image_write (out_trace o) = 1 →
  ∃ blob rest,
    firmware_bytes firmware = Ok blob
    ∧ N.of_nat (length blob) = device_flash_size device
    ∧ layout_has_region (ifd_layout p) bios_region = true
    ∧ out_trace o
      = ([EvProgressSetId (G_STRLOC 123);
          EvProgressAddFlag FU_PROGRESS_FLAG_GUESSED;
          EvProgressAddStep FWUPD_STATUS_DEVICE_WRITE 90;
          EvProgressAddStep FWUPD_STATUS_DEVICE_VERIFY 10;
          EvLayoutReadFromIfd;
          EvLayoutIncludeRegion (w_next_layout w) bios_region;
          EvLayoutSet (w_next_layout w);
          EvImageWrite blob (device_flash_size device)] ++ rest)%list.
Proof.
  exec; cbn; intros Hcount; try discriminate.
  all: apply N.eqb_eq in Heqb1; rewrite Heqb1.
  all: pose proof (layout_include_region_rc (ifd_layout p) bios_region) as Hrc.
  all: rewrite Heqp0 in Hrc; cbn [fst] in Hrc.
  all: destruct (layout_has_region (ifd_layout p) bios_region) eqn:Hbios;
    [|apply Z.eqb_eq in Heqb0; congruence].
  all: eexists _, _; repeat split; done.
Qed.

Lemma write_is_scoped_to_bios_witness :
  ∃ rest,
    out_trace (fu_flashrom_internal_device_write_firmware
                 Example.verify_fails Example.device Example.firmware Example.fresh)
    = ([EvProgressSetId (G_STRLOC 123);
        EvProgressAddFlag FU_PROGRESS_FLAG_GUESSED;
        EvProgressAddStep FWUPD_STATUS_DEVICE_WRITE 90;
        EvProgressAddStep FWUPD_STATUS_DEVICE_VERIFY 10;
        EvLayoutReadFromIfd;
        EvLayoutIncludeRegion 0 bios_region;
        EvLayoutSet 0;
        EvImageWrite Example.image 4] ++ rest)%list.
Proof.
  destruct (write_is_scoped_to_bios Example.verify_fails Example.device
              Example.firmware Example.fresh) as (blob & rest & Hfw & _ & _ & Htrace).
  - vm_compute. reflexivity.
  - injection Hfw as <-. exists rest. exact Htrace.
Defined.

(** X18.  The chip is written and verified with one and the same
    buffer: the calls that touch the image are none, the write alone, or
    the write followed by the verify of the bytes written, both with the
    size of the flash. *)
Theorem verify_checks_what_was_written p device firmware w blob :
  firmware_bytes firmware = Ok blob →
  let o := fu_flashrom_internal_device_write_firmware p device firmware w in
  let size := device_flash_size device in
  select is_chip_io (out_trace o) = []
  ∨ select is_chip_io (out_trace o) = [EvImageWrite blob size]
  ∨ select is_chip_io (out_trace o) = [EvImageWrite blob size; EvImageVerify blob size].
Proof.
  intros Hfw. exec; cbn; try (by left).
  all: apply N.eqb_eq in Heqb1; rewrite Heqb1; auto.
Qed.

Lemma verify_checks_what_was_written_witness :
  select is_chip_io
    (out_trace (fu_flashrom_internal_device_write_firmware
                  Example.good Example.device Example.firmware Example.fresh))
  = [EvImageWrite Example.image 4; EvImageVerify Example.image 4].
Proof.
  destruct (verify_checks_what_was_written Example.good Example.device Example.firmware
              Example.fresh Example.image eq_refl) as [H | [H | H]].
  - discriminate H.
  - discriminate H.
  - exact H.
Defined.

(** ** Layouts *)

(** X19.  Once [write_firmware] has released its layout, the flash
    context still refers to it: the handle installed by
    [flashrom_layout_set] is not taken back, on the success exit and on
    the exit of a failed CMOS reset alike. *)
Theorem released_layout_stays_installed p device firmware w :
  let o := fu_flashrom_internal_device_write_firmware p device firmware w in
  invocations is_layout_release (out_trace o) = 1 →
  w_flashctx_layout (out_world o) = Some (w_next_layout w)
  ∧ w_layouts (out_world o) !! w_next_layout w = None.
Proof.
  exec; cbn; intros Hcount; try discriminate.
  all: split; [reflexivity | apply lookup_delete_eq].
Qed.

Lemma released_layout_stays_installed_witness :
  let o := fu_flashrom_internal_device_write_firmware
             Example.good Example.device Example.firmware Example.fresh in
  w_flashctx_layout (out_world o) = Some 0
  ∧ w_layouts (out_world o) !! 0 = None.
Proof.
  apply (released_layout_stays_installed Example.good Example.device Example.firmware
           Example.fresh).
  vm_compute. reflexivity.
Defined.

(** X20.  The hooks touch no layout but their own: a layout under any
    other handle is allocated after the run exactly if it was before,
    with the same regions, and the next handle never goes down. *)
Theorem hooks_keep_other_layouts p device firmware w (o : Outcome ()) h :
  o = fu_flashrom_internal_device_prepare p device w
  ∨ o = fu_flashrom_internal_device_write_firmware p device firmware w →
  h ≠ w_next_layout w →
  w_layouts (out_world o) !! h = w_layouts w !! h
  ∧ (w_next_layout w ≤ w_next_layout (out_world o))%nat.
Proof.
  intros [-> | ->] Hne; exec; cbn; split; try lia; try reflexivity.
  all: rewrite ?lookup_delete_ne by done.
  all: by rewrite !lookup_insert_ne by done.
Qed.

Lemma hooks_keep_other_layouts_witness :
  w_layouts (out_world (fu_flashrom_internal_device_prepare
                          Example.good Example.device
                          (set_layouts {[7 := Example.layout_without_bios]}
                                       Example.fresh))) !! 7
  = Some Example.layout_without_bios.
Proof.
  destruct (hooks_keep_other_layouts Example.good Example.device Example.firmware
              (set_layouts {[7 := Example.layout_without_bios]} Example.fresh)
              _ 7 (or_introl eq_refl)) as (Hkept & _).
  - discriminate.
  - rewrite Hkept. vm_compute. reflexivity.
Defined.

Lemma layouts_fresh_next w :
  layouts_fresh w → w_layouts w !! w_next_layout w = None.
Proof.
  intros Hfresh. apply eq_None_not_Some. intros Hsome.
  specialize (Hfresh _ Hsome). lia.
Qed.

(** Both hooks keep the handles apart: if every live layout lay
    below the next handle before the run, the same holds after it, on
    every exit. *)
Theorem hooks_keep_layouts_fresh p device firmware w (o : Outcome ()) :
  o = fu_flashrom_internal_device_prepare p device w
  ∨ o = fu_flashrom_internal_device_write_firmware p device firmware w →
  layouts_fresh w →
  layouts_fresh (out_world o).
Proof.
  intros [-> | ->] Hfresh; exec; try done.
  all: intros h [l Hl]; cbn in *.
  all: destruct (decide (h = w_next_layout w)) as [-> | Hne]; [lia|].
  all: rewrite ?lookup_delete_ne in Hl by done.
  all: rewrite !lookup_insert_ne in Hl by done.
  all: assert (h < w_next_layout w)%nat by (apply Hfresh; by eexists); lia.
Qed.

Lemma hooks_keep_layouts_fresh_witness :
  layouts_fresh (out_world (fu_flashrom_internal_device_prepare
                              Example.good Example.device Example.fresh)).
Proof.
  apply (hooks_keep_layouts_fresh Example.good Example.device Example.firmware
           Example.fresh _ (or_introl eq_refl)).
  intros h [l Hl]. cbn in Hl. by rewrite lookup_empty in Hl.
Defined.

(** X21.  The live layouts of a run add up: their number afterwards,
    plus the releases of the run, is their number before plus one for a
    successful descriptor read.  As [prepare] never releases, each of its
    runs that reads the descriptor leaves one more layout allocated; a
    run of [write_firmware] that gets past verify leaves none. *)
Theorem layouts_balance p device firmware w (o : Outcome ()) :
  o = fu_flashrom_internal_device_prepare p device w
  ∨ o = fu_flashrom_internal_device_write_firmware p device firmware w →
  layouts_fresh w →
  (size (w_layouts (out_world o)) + invocations is_layout_release (out_trace o)
   = size (w_layouts w)
     + (if (ifd_rc p =? 0)%Z then invocations is_descriptor_read (out_trace o) else 0))%nat.
Proof.
  intros Ho Hfresh%layouts_fresh_next.
  destruct Ho as [-> | ->]; exec; cbn; try lia.
  all: rewrite ?delete_insert_eq, ?insert_insert_eq.
  all: rewrite ?delete_insert_eq, ?map_size_delete_None by done.
  all: rewrite ?map_size_insert_None by done; try lia.
  all: by destruct (ifd_rc p =? 0)%Z.
Qed.

Lemma layouts_balance_witness :
  size (w_layouts (out_world (fu_flashrom_internal_device_prepare
                                Example.good Example.device Example.fresh))) = 1
  ∧ size (w_layouts (out_world (fu_flashrom_internal_device_write_firmware
                                  Example.good Example.device Example.firmware
                                  Example.fresh))) = 0.
Proof.
  assert (layouts_fresh Example.fresh) as Hfresh
    by (intros h [l Hl]; cbn in Hl; by rewrite lookup_empty in Hl).
  pose proof (layouts_balance Example.good Example.device Example.firmware
                Example.fresh _ (or_introl eq_refl) Hfresh) as Hprepare.
  pose proof (layouts_balance Example.good Example.device Example.firmware
                Example.fresh _ (or_intror eq_refl) Hfresh) as Hwrite.
  split.
  - etrans; [symmetry; apply Nat.add_0_r|]. etrans; [exact Hprepare|]. reflexivity.
  - apply (Nat.add_cancel_r _ _ 1). etrans; [exact Hwrite|]. reflexivity.
Defined.

(** ** The two hooks in sequence *)

(** X22.  An update of a device without backup: when [prepare] and then
    [write_firmware] succeed, the backup holds the chip as it was read
    before the write, the image has been read, then written, then
    verified, once each, the descriptor has been read twice, and of the
    two layouts the one of [prepare] is still allocated while the one of
    [write_firmware] is released and still installed. *)
Theorem prepare_then_write_firmware p p' device firmware w :
  file_test_exists (w_fs w) (backup_artifact_path p device) = false →
  let o1 := fu_flashrom_internal_device_prepare p device w in
  succeeded o1 →
  let o2 := fu_flashrom_internal_device_write_firmware p' device firmware (out_world o1) in
  succeeded o2 →
  let trace := (out_trace o1 ++ out_trace o2)%list in
  let h := w_next_layout w in
  let size := device_flash_size device in
  fs_files (w_fs (out_world o2)) !! backup_artifact_path p device
  = Some (backup_bytes p device)
  ∧ (∃ blob, firmware_bytes firmware = Ok blob
       ∧ select is_image_access trace
         = [EvImageRead size; EvImageWrite blob size; EvImageVerify blob size])
  ∧ invocations is_descriptor_read trace = 2
  ∧ w_layouts (out_world o2) !! h
    = Some (snd (layout_include_region (ifd_layout p) bios_region))
  ∧ w_layouts (out_world o2) !! S h = None
  ∧ w_flashctx_layout (out_world o2) = Some (S h).
Proof.
  intros Habsent o1 Hok1. subst o1.
  destruct (prepare_backup_created p device w Habsent Hok1) as (l' & Hinc & _ & ->).
  cbn [out_world out_trace]. rewrite Hinc. cbn [snd].
  unfold succeeded.
  exec; intros [u Hu]; try discriminate; cbn.
  all: apply N.eqb_eq in Heqb1; rewrite Heqb1.
  all: rewrite lookup_delete_eq.
  all: rewrite lookup_delete_ne, !lookup_insert_ne, lookup_insert_eq by lia.
  all: repeat split; eauto.
Qed.

Lemma prepare_then_write_firmware_witness :
  let o1 := fu_flashrom_internal_device_prepare
              Example.good Example.device Example.fresh in
  let o2 := fu_flashrom_internal_device_write_firmware
              Example.good Example.device Example.firmware (out_world o1) in
  fs_files (w_fs (out_world o2)) !! "/var/lib/fwupd/builder/flashrom-a1b2c3.bin"
  = Some Example.chip
  ∧ is_Some (w_layouts (out_world o2) !! 0)
  ∧ w_layouts (out_world o2) !! 1 = None
  ∧ w_flashctx_layout (out_world o2) = Some 1.
Proof.
  destruct (prepare_then_write_firmware Example.good Example.good Example.device
              Example.firmware Example.fresh)
    as (Hfile & _ & _ & Hkept & Hreleased & Hinstalled).
  - vm_compute. reflexivity.
  - exists tt. vm_compute. reflexivity.
  - exists tt. vm_compute. reflexivity.
  - split; [exact Hfile|]. split; [by eexists|]. split; [exact Hreleased | exact Hinstalled].
Defined.

(** ** The reset flag *)

(** X23.  Of the private flags of the device [write_firmware] looks at
    bit 0 only: two devices with the same flash size whose flags agree on
    that bit give the same run. *)
Theorem write_firmware_reads_bit_0_only p device device' firmware w :
  device_flash_size device = device_flash_size device' →
  Z.testbit (device_private_flags device) 0 = Z.testbit (device_private_flags device') 0 →
  fu_flashrom_internal_device_write_firmware p device firmware w
  = fu_flashrom_internal_device_write_firmware p device' firmware w.
Proof.
  intros Hsize Hbit. rewrite <- !reset_cmos_flag_bit in Hbit.
  unfold fu_flashrom_internal_device_write_firmware, fu_flashrom_device_get_flash_size.
  by rewrite Hsize, Hbit.
Qed.

Lemma write_firmware_reads_bit_0_only_witness :
  fu_flashrom_internal_device_write_firmware
    Example.cmos_fails Example.device Example.firmware Example.fresh
  = fu_flashrom_internal_device_write_firmware
      Example.cmos_fails Example.device_other_flags Example.firmware Example.fresh.
Proof.
  apply (write_firmware_reads_bit_0_only Example.cmos_fails Example.device
           Example.device_other_flags Example.firmware Example.fresh);
    reflexivity.
Defined.

(** X24.  A failed CMOS reset is reported when everything else is done:
    the hook fails, yet both steps of the progress object are complete,
    the chip has been written and verified, and the layout is released. *)
Theorem cmos_failure_after_completion p device firmware w id e :
  w_progress w = fu_progress_new id →
  reaches_write p device firmware →
  image_write_rc p = 0%Z → image_verify_rc p = 0%Z →
  fu_device_has_private_flag device FU_FLASHROM_DEVICE_FLAG_RESET_CMOS = true →
  cmos_reset_failure p = Some e →
  let o := fu_flashrom_internal_device_write_firmware p device firmware w in
  (∃ e', failed_with o e')
  ∧ progress_step_now (w_progress (out_world o)) = length (progress_steps (w_progress (out_world o)))
  ∧ select is_step_done (out_trace o) = [EvProgressStepDone; EvProgressStepDone]
  ∧ invocations is_layout_release (out_trace o) = 1
  ∧ last (out_trace o) = Some EvCmosReset
  ∧ invocations is_image_write (out_trace o) = 1
  ∧ invocations is_image_verify (out_trace o) = 1.
Proof.
  intros Hpr (blob & l' & Hfw & Hifd & Hinc & Hsz)%reaches_write_tests
         Hwrite Hverify Hflag Hreset.
  apply Z.eqb_eq in Hwrite, Hverify. unfold failed_with.
  exec. rewrite Hpr. repeat split. eauto.
Qed.

Lemma cmos_failure_after_completion_witness :
  let o := fu_flashrom_internal_device_write_firmware
             Example.cmos_fails Example.device_reset_cmos Example.firmware
             Example.fresh in
  (∃ e', failed_with o e')
  ∧ progress_step_now (w_progress (out_world o)) = 2
  ∧ invocations is_layout_release (out_trace o) = 1.
Proof.
  destruct (cmos_failure_after_completion Example.cmos_fails Example.device_reset_cmos
              Example.firmware Example.fresh "engine" Example.io_error eq_refl)
    as (Hfail & Hnow & _ & Hrelease & _).
  - exists Example.image. repeat split; reflexivity.
  - reflexivity.
  - reflexivity.
  - reflexivity.
  - reflexivity.
  - split; [exact Hfail|]. split; [exact Hnow | exact Hrelease].
Defined.
